(** * MIRE-Bot, book club suggestions: a shallow embedding of
      [src/book_club/suggestions.py] and the properties of its handlers.

    The handlers are Python coroutines that read and mutate the suggestion
    catalog through the [database] module and may raise.  They are embedded
    as computations in a state-and-exception monad over the catalog: a
    handler takes the catalog and returns either a value or the exception
    that escaped it, together with the catalog it leaves behind. *)

From Stdlib Require Import ZArith List String Ascii Bool Lia.
From Stdlib Require Import Permutation Sorted.
Import ListNotations.

Local Open Scope string_scope.
Local Open Scope list_scope.
Local Open Scope Z_scope.

(** ** Data *)

(** [discord.Member]: the handlers read [user.id]; the role provider reads
    the roles. *)
Record Member : Type := mkMember {
  id : Z;
  roles : list string
}.

(** One row of the catalog, with the attributes the handlers touch:
    [doc_id], [title], [next_ch], [total_ch], [notes], [is_prioritized], and
    the owner given to [Suggestion.new] and asked of [Suggestion.from_user]. *)
Record Suggestion : Type := mkSuggestion {
  doc_id : Z;
  title : string;
  owner_id : Z;
  total_ch : Z;
  next_ch : Z;
  notes : string;
  is_prioritized : bool
}.

Definition set_title (v : string) (e : Suggestion) : Suggestion :=
  mkSuggestion (doc_id e) v (owner_id e) (total_ch e) (next_ch e) (notes e)
               (is_prioritized e).

Definition set_next_ch (v : Z) (e : Suggestion) : Suggestion :=
  mkSuggestion (doc_id e) (title e) (owner_id e) (total_ch e) v (notes e)
               (is_prioritized e).

Definition set_total_ch (v : Z) (e : Suggestion) : Suggestion :=
  mkSuggestion (doc_id e) (title e) (owner_id e) v (next_ch e) (notes e)
               (is_prioritized e).

Definition set_is_prioritized (v : bool) (e : Suggestion) : Suggestion :=
  mkSuggestion (doc_id e) (title e) (owner_id e) (total_ch e) (next_ch e)
               (notes e) v.

(** The catalog, in the order [Suggestion.all()] yields it. *)
Definition Store : Type := list Suggestion.

(** The exceptions that can leave a handler.  [ValueError], [AttributeError]
    and [IndexError] are Python's own; [CheckFailure] is the one
    [interaction_check] raises (the spec's Unauthorized signal);
    [NotFound], [DuplicateTitle] and [InvalidInput] are the failures of the
    entity store. *)
Inductive exn : Type :=
| ValueError
| AttributeError
| IndexError
| CheckFailure
| NotFound
| DuplicateTitle
| InvalidInput.

(** [discord.Embed(title=..., description=...)]. *)
Record Embed : Type := mkEmbed {
  embed_title : string;
  description : string
}.

(** The value an option of a menu was built with: a title in the owner
    menus, a [doc_id] in the prioritize menu. *)
Inductive OptionValue : Type :=
| TitleValue (t : string)
| DocIdValue (d : Z).

(** One entry of a [discord.ui.Select]. *)
Record SelectOption : Type := mkOption {
  label : string;
  value : OptionValue;
  default : bool
}.

(** A [Select] as its constructor leaves it; discord.py's defaults are
    [min_values = 1] and [max_values = 1]. *)
Record Select : Type := mkSelect {
  min_values : nat;
  max_values : nat;
  options : list SelectOption
}.

(** [discord.Interaction]: the handlers read the acting user. *)
Record Interaction : Type := mkInteraction {
  user : Member
}.

(** An [EditModal] instance: the suggestion fetched by [__init__], the
    defaults put in the four inputs, and the instance attribute [notes],
    unset until [on_submit] assigns it. *)
Record EditModalState : Type := mkEditModal {
  suggestion : Suggestion;
  default_TITLE : string;
  default_NEXT_CH : Z;
  default_TOTAL_CH : Z;
  default_NOTES : string;
  self_notes : option string
}.

(** What a handler asks of [interaction.response]. *)
Inductive Response : Type :=
| edit_message (embed : Embed)
| send_message (content : string) (view : Select) (ephemeral : bool)
| send_modal (modal : EditModalState).

(** ** Python built-ins *)

Module Py.

(** The white space [int] skips around an ASCII literal: tab, line feed,
  vertical tab, form feed, carriage return and space. *)
Definition is_space (c : ascii) : bool :=
let n := nat_of_ascii c in
(((9 <=? n) && (n <=? 13)) || (n =? 32))%nat.

(** [str.isascii]. *)
Fixpoint is_ascii (s : string) : bool :=
match s with
| String c s' => (nat_of_ascii c <? 128)%nat && is_ascii s'
| EmptyString => true
end.

Fixpoint lstrip (s : string) : string :=
match s with
| String c s' => if is_space c then lstrip s' else s
| EmptyString => EmptyString
end.

Fixpoint rev_onto (s acc : string) : string :=
match s with
| String c s' => rev_onto s' (String c acc)
| EmptyString => acc
end.

Definition strip (s : string) : string :=
rev_onto (lstrip (rev_onto (lstrip s) EmptyString)) EmptyString.

Definition digit_val (c : ascii) : option Z :=
let n := nat_of_ascii c in
if ((48 <=? n) && (n <=? 57))%nat then Some (Z.of_nat n - 48) else None.

(** The digits of a decimal literal: single underscores are allowed between
  digits only. *)
Fixpoint digits (acc : Z) (after_digit : bool) (s : string) : option Z :=
match s with
| EmptyString => if after_digit then Some acc else None
| String c s' =>
    if Ascii.eqb c "_"%char
    then (if after_digit then digits acc false s' else None)
    else match digit_val c with
         | Some d => digits (10 * acc + d) true s'
         | None => None
         end
end.

(** [int(s)] for an ASCII string [s] of at most 4300 characters:
  surrounding white space, an optional sign, a decimal literal.  [None]
  stands for [ValueError].  Other text is not the business of this
  function: see [py_int]. *)
Definition int (s : string) : option Z :=
match strip s with
| String "+"%char r => digits 0 false r
| String "-"%char r => option_map Z.opp (digits 0 false r)
| t => digits 0 false t
end.

(** ["sep".join(l)]. *)
Fixpoint join (sep : string) (l : list string) : string :=
match l with
| [] => EmptyString
| [x] => x
| x :: rest => (x ++ sep ++ join sep rest)%string
end.

Section Sorted.
Context {A : Type} (key : A -> Z).

(** [x] goes in front of the first element whose key is not smaller. *)
Fixpoint insert (x : A) (l : list A) : list A :=
  match l with
  | [] => [x]
  | y :: rest =>
      if key x <=? key y then x :: y :: rest else y :: insert x rest
  end.

(** [sorted(l, key=key)]: ascending in the key and stable, elements with
    equal keys keep the order they have in [l].  A stable sort has one
    possible result, so an insertion sort that puts each element in front
    of the later ones with an equal key computes it. *)
Fixpoint sorted (l : list A) : list A :=
  match l with
  | [] => []
  | x :: rest => insert x (sorted rest)
  end.
End Sorted.

(** The order of the keys, on the elements. *)
Definition key_le {A : Type} (key : A -> Z) (a b : A) : Prop :=
  key a <= key b.

End Py.

(** ** The monad of handlers *)

Inductive result (A : Type) : Type :=
| Ok (a : A)
| Raise (e : exn).
Arguments Ok {A} _.
Arguments Raise {A} _.

Definition M (A : Type) : Type := Store -> result A * Store.

Definition ret {A : Type} (a : A) : M A := fun s => (Ok a, s).

Definition raise {A : Type} (e : exn) : M A := fun s => (Raise e, s).

Definition bind {A B : Type} (m : M A) (k : A -> M B) : M B :=
  fun s =>
    match m s with
    | (Ok a, s') => k a s'
    | (Raise e, s') => (Raise e, s')
    end.

Notation "x <- m ;; k" := (bind m (fun x => k))
  (at level 61, m at next level, right associativity).
Notation "m ;;; k" := (bind m (fun _ => k))
  (at level 61, right associativity).

(** [for x in l: body(x)]. *)
Fixpoint for_each {A : Type} (l : list A) (body : A -> M unit) : M unit :=
  match l with
  | [] => ret tt
  | x :: rest => body x ;;; for_each rest body
  end.

(** [[f(x) for x in l]]. *)
Fixpoint comprehension {A B : Type} (f : A -> M B) (l : list A) : M (list B) :=
  match l with
  | [] => ret []
  | x :: rest => y <- f x ;; ys <- comprehension f rest ;; ret (y :: ys)
  end.

(** [Select.add_option]: a menu holds at most 25 options, and discord.py
    refuses one more with [ValueError]. *)
Definition add_option (self : Select) (o : SelectOption) : M Select :=
  if (25 <=? List.length (options self))%nat then raise ValueError
  else ret (mkSelect (min_values self) (max_values self)
                     (options self ++ [o])).

(** [for entry in entries: self.add_option(...)], where [option_of] gives
    the option the body builds for an entry. *)
Fixpoint add_options {E : Type} (option_of : E -> SelectOption)
         (entries : list E) (self : Select) : M Select :=
  match entries with
  | [] => ret self
  | entry :: rest =>
      self' <- add_option self (option_of entry) ;;
      add_options option_of rest self'
  end.

(** ** The [database] module *)

(** Modelled from the spec: [Suggestion.all()] of the missing [database]
    module, the spec's [list_all] before the listing sorts it: every record
    of the catalog, in catalog order. *)
Definition Suggestion_all : M (list Suggestion) :=
  fun s => (Ok s, s).

Definition has_title (t : string) (e : Suggestion) : bool :=
  String.eqb (title e) t.

(** Modelled from the spec: [Suggestion.get(title)] of the missing
    [database] module, the spec's [get]: the record with that exact title,
    [NotFound] if there is none. *)
Definition Suggestion_get (t : string) : M Suggestion :=
  fun s =>
    match find (has_title t) s with
    | Some e => (Ok e, s)
    | None => (Raise NotFound, s)
    end.

(** Modelled from the spec: [Suggestion.from_user(user_id)] of the missing
    [database] module, the spec's [list_by_owner]: the records of that
    owner, in the order of the full list. *)
Definition Suggestion_from_user (uid : Z) : M (list Suggestion) :=
  fun s => (Ok (filter (fun e => owner_id e =? uid) s), s).

Definition fresh_doc_id (s : Store) : Z :=
  1 + fold_right Z.max 0 (map doc_id s).

(** Modelled from the spec: [Suggestion.new(title, owner_id, total_chapters,
    notes)] of the missing [database] module, the spec's [create]:
    [DuplicateTitle] if the title exists, [InvalidInput] if the notes are
    empty or the chapter count is negative; otherwise a record with a new
    [doc_id], [next_ch = 0] and [is_prioritized = false] joins the catalog. *)
Definition Suggestion_new (t : string) (owner : Z) (total : Z) (n : string)
  : M Suggestion :=
  fun s =>
    if existsb (has_title t) s then (Raise DuplicateTitle, s)
    else if (String.eqb n "" || (total <? 0))%bool then (Raise InvalidInput, s)
    else
      let e := mkSuggestion (fresh_doc_id s) t owner total 0 n false in
      (Ok e, s ++ [e]).

(** Modelled from the spec: an attribute assignment [sug.attr = v] on a
    record of the missing [database] module.  The record obtained from the
    store stands for the stored row with its [doc_id]: the assignment [f]
    changes that row and the handler's own copy. *)
Definition assign (sug : Suggestion) (f : Suggestion -> Suggestion)
  : M Suggestion :=
  fun s => (Ok (f sug),
            map (fun e => if doc_id e =? doc_id sug then f e else e) s).

(** Modelled from the spec: [with new_session() as session: ...
    session.commit()] of the missing [database] module, the spec's
    transactional update: the assignments made by the block are kept when
    it reaches its [commit], its last statement, and none is when an
    exception leaves the block before. *)
Definition new_session {A : Type} (body : M A) : M A :=
  fun s =>
    match body s with
    | (Ok a, s') => (Ok a, s')
    | (Raise e, _) => (Raise e, s)
    end.

(** What [suggestions.py] takes from outside the source tree:
    [utils.abbreviate], [utils.roles.is_lit_chair], the derived attribute
    [status] and the method [display_title] of [Suggestion]; and
    [int_elsewhere], what the interpreter's [int] makes of a text that
    [Py.int] does not cover, one with a character outside ASCII (where
    [int] reads the decimal digits and the white space of all of Unicode)
    or with more than 4300 characters (where the interpreter may refuse
    the number of digits). *)
Class Imported : Type := {
  abbreviate : string -> string;
  is_lit_chair : Member -> bool;
  status : Suggestion -> Z;
  display_title : Suggestion -> string;
  int_elsewhere : string -> option Z
}.

(** The texts [Py.int] covers. *)
Definition in_fragment (text : string) : bool :=
  Py.is_ascii text && (Z.of_nat (String.length text) <=? 4300).

(** [int(text)] for every text; [None] stands for [ValueError]. *)
Definition py_int `{Imported} (text : string) : option Z :=
  if in_fragment text then Py.int text else int_elsewhere text.

(** [int(text)], raising [ValueError]. *)
Definition int_of `{Imported} (text : string) : M Z :=
  match py_int text with
  | Some n => ret n
  | None => raise ValueError
  end.

(** Modelled from the spec: the one thing the spec says of the missing
    [status] attribute, that as a sort key it puts prioritized entries
    first. *)
Definition status_prioritized_first `{Imported} : Prop :=
  forall a b : Suggestion,
    is_prioritized a = true -> is_prioritized b = false -> status a < status b.

(** ** [suggestions.py] *)

Definition newline : string := String (ascii_of_nat 10) EmptyString.

(** [suggestions_embed()]. *)
Definition suggestions_embed `{Imported} : M Embed :=
  all <- Suggestion_all ;;
  let titles := map display_title (Py.sorted status all) in
  ret (mkEmbed "Suggested works:" (Py.join newline titles)).

(** The option both owner menus and the full menu add for an entry. *)
Definition title_option `{Imported} (entry : Suggestion) : SelectOption :=
  mkOption (abbreviate (title entry)) (TitleValue (title entry)) false.

Module SuggestionsDropdown.

Definition init `{Imported} : M Select :=
  all <- Suggestion_all ;;
  add_options title_option all (mkSelect 1 1 []).

Definition callback `{Imported} (interaction : Interaction) : M Response :=
  embed <- suggestions_embed ;;
  ret (edit_message embed).

Definition get_all (values : list string) : M (list Suggestion) :=
  comprehension Suggestion_get values.

Definition get (values : list string) : M Suggestion :=
  match values with
  | v :: _ => Suggestion_get v
  | [] => raise IndexError
  end.

End SuggestionsDropdown.

Module UserSuggestionsDropdown.

(** [super(SuggestionsDropdown, self).__init__()] is [Select.__init__]:
    the options of the full menu are not added. *)
Definition init `{Imported} (user : Member) : M Select :=
  entries <- Suggestion_from_user (id user) ;;
  add_options title_option entries (mkSelect 1 1 []).

End UserSuggestionsDropdown.

Module AddModal.

(** The values of the three inputs at submission.  [CHAPTERS] is
    optional, and the handler provides for its value being [None]. *)
Record form : Type := mkForm {
  TITLE : string;
  CHAPTERS : option string;
  NOTES : string
}.

Definition on_submit `{Imported} (self : form) (interaction : Interaction)
  : M Response :=
  let user := user interaction in
  let title := TITLE self in
  let chapters := CHAPTERS self in
  total_ch <- match chapters with
              | Some text =>
                  if (0 <? String.length text)%nat then int_of text
                  else ret 0
              | None => ret 0
              end ;;
  let notes := NOTES self in
  Suggestion_new title (id user) total_ch notes ;;;
  embed <- suggestions_embed ;;
  ret (edit_message embed).

End AddModal.

Module EditModal.

Record form : Type := mkForm {
  TITLE : string;
  NEXT_CH : string;
  TOTAL_CH : string;
  NOTES : string
}.

Definition init (selected : string) : M EditModalState :=
  suggestion <- Suggestion_get selected ;;
  ret (mkEditModal suggestion
                   (title suggestion) (next_ch suggestion)
                   (total_ch suggestion) (notes suggestion) None).

(** The body of the [with new_session()] block.  Its fourth assignment is
    [self.notes = ...]: it sets the attribute [notes] of the modal, not
    of [self.suggestion]. *)
Definition on_submit_block `{Imported} (self : EditModalState)
           (values : form) : M EditModalState :=
  sug1 <- assign (suggestion self) (set_title (TITLE values)) ;;
  let next_ch := NEXT_CH values in
  sug2 <- (if (0 <? String.length next_ch)%nat
           then n <- int_of next_ch ;; assign sug1 (set_next_ch n)
           else ret sug1) ;;
  let total_ch := TOTAL_CH values in
  sug3 <- (if (0 <? String.length total_ch)%nat
           then n <- int_of total_ch ;; assign sug2 (set_total_ch n)
           else ret sug2) ;;
  ret (mkEditModal sug3
                   (default_TITLE self) (default_NEXT_CH self)
                   (default_TOTAL_CH self) (default_NOTES self)
                   (Some (NOTES values))).

(** [on_submit]: the modal as the handler leaves it, and the response. *)
Definition on_submit `{Imported} (self : EditModalState) (values : form)
           (interaction : Interaction) : M (EditModalState * Response) :=
  self' <- new_session (on_submit_block self values) ;;
  embed <- suggestions_embed ;;
  ret (self', edit_message embed).

End EditModal.

Module EditDropdown.

Definition callback (values : list string) (interaction : Interaction)
  : M Response :=
  match values with
  | title :: _ => modal <- EditModal.init title ;; ret (send_modal modal)
  | [] => raise IndexError
  end.

End EditDropdown.

Module EditButton.

Definition callback `{Imported} (interaction : Interaction) : M Response :=
  dropdown <- UserSuggestionsDropdown.init (user interaction) ;;
  ret (send_message "Which suggestions would you like to edit?"
                    dropdown true).

End EditButton.

(** [entry.remove()] where [entry] is a [str]: [self.values] holds the
    selected option values, which are strings, and [str] has no attribute
    [remove]. *)
Definition str_remove (entry : string) : M unit :=
  raise AttributeError.

Module RemoveDropdown.

Definition callback `{Imported} (values : list string)
           (interaction : Interaction) : M Response :=
  for_each values (fun entry => str_remove entry) ;;;
  SuggestionsDropdown.callback interaction.

End RemoveDropdown.

Module RemoveButton.

Definition callback `{Imported} (interaction : Interaction) : M Response :=
  dropdown <- UserSuggestionsDropdown.init (user interaction) ;;
  ret (send_message "Which suggestions would you like to remove?"
                    dropdown true).

End RemoveButton.

(** The option the prioritize menu adds for an entry. *)
Definition prioritize_option (entry : Suggestion) : SelectOption :=
  mkOption (title entry) (DocIdValue (doc_id entry)) (is_prioritized entry).

Module PrioritizeDropdown.

Definition init : M Select :=
  all <- Suggestion_all ;;
  add_options prioritize_option all (mkSelect 0 (List.length all) []).

Definition callback `{Imported} (values : list string)
           (interaction : Interaction) : M Response :=
  sugs <- SuggestionsDropdown.get_all values ;;
  for_each sugs
    (fun sug => assign sug (set_is_prioritized true) ;;; ret tt) ;;;
  SuggestionsDropdown.callback interaction.

Definition interaction_check `{Imported} (interaction : Interaction)
  : M bool :=
  let user := user interaction in
  if negb (is_lit_chair user) then raise CheckFailure else ret true.

End PrioritizeDropdown.

Module PrioritizeButton.

Definition callback (interaction : Interaction) : M Response :=
  dropdown <- PrioritizeDropdown.init ;;
  ret (send_message "What would you like to prioritize?" dropdown true).

Definition interaction_check `{Imported} (interaction : Interaction)
  : M bool :=
  let user := user interaction in
  if negb (is_lit_chair user) then raise CheckFailure else ret true.

End PrioritizeButton.

(** How discord.py's [View] runs a component when an interaction arrives
    for it: the item's [interaction_check] first; the [callback] only when
    the check returned [True]; an exception of either goes to [on_error]
    and ends the interaction.  [None] is an interaction that was dropped. *)
Definition dispatch {A : Type} (check : M bool) (callback : M A)
  : M (option A) :=
  allow <- check ;;
  if allow : bool then (a <- callback ;; ret (Some a)) else ret None.

(** A user presses the prioritize button. *)
Definition press_prioritize `{Imported} (interaction : Interaction)
  : M (option Response) :=
  dispatch (PrioritizeButton.interaction_check interaction)
           (PrioritizeButton.callback interaction).

(** A user submits the prioritize menu with [values] selected. *)
Definition submit_prioritize `{Imported} (values : list string)
           (interaction : Interaction) : M (option Response) :=
  dispatch (PrioritizeDropdown.interaction_check interaction)
           (PrioritizeDropdown.callback values interaction).

(** ** Collaborators for the examples *)

Definition role_is_lit_chair (u : Member) : bool :=
  existsb (String.eqb "Literature Chair") (roles u).

Definition flag_status (e : Suggestion) : Z :=
  if is_prioritized e then 0 else 1.

Definition example_imports : Imported :=
  {| abbreviate := fun t => t;
     is_lit_chair := role_is_lit_chair;
     status := flag_status;
     display_title := title;
     int_elsewhere := fun _ => None |}.

(** The catalog and the users of the examples. *)
Definition dune : Suggestion := mkSuggestion 1 "Dune" 7 0 0 "classic" true.

Definition emma : Suggestion := mkSuggestion 2 "Emma" 8 0 0 "austen" false.

Definition chair : Interaction :=
  mkInteraction (mkMember 9 ["Literature Chair"]).

Definition reader : Interaction := mkInteraction (mkMember 7 []).

(** ** Frames *)

(** [m] takes every catalog to one related to it by [R], whether it
    returns or raises. *)
Definition preserves {A : Type} (R : Store -> Store -> Prop) (m : M A)
  : Prop :=
  forall s : Store, R s (snd (m s)).

(** The column [proj] of the catalog is the same, row by row. *)
Definition same_column {B : Type} (proj : Suggestion -> B) (s s' : Store)
  : Prop :=
  map proj s' = map proj s.

(** Row by row, a flag that was set is still set. *)
Definition flags_kept (s s' : Store) : Prop :=
  Forall2 (fun e e' => is_prioritized e = true -> is_prioritized e' = true)
          s s'.

(** What [m] returns, when it returns, satisfies [P]. *)
Definition returns {A : Type} (P : A -> Prop) (m : M A) : Prop :=
  forall s : Store,
    match fst (m s) with
    | Ok a => P a
    | Raise _ => True
    end.

(** ** Effects *)

(** The rows a prioritize submission writes to: those with the [doc_id] of
    one of the suggestions [get_all] fetched. *)
Definition selected_row (sugs : list Suggestion) (e : Suggestion) : bool :=
  existsb (fun sug => doc_id e =? doc_id sug) sugs.

Definition flag_selected (sugs : list Suggestion) (e : Suggestion)
  : Suggestion :=
  if selected_row sugs e then set_is_prioritized true e else e.

(** The rows an edit writes to: those with the [doc_id] [d]; [f] is what
    it does to them. *)
Definition rewrite_row (d : Z) (f : Suggestion -> Suggestion)
           (e : Suggestion) : Suggestion :=
  if doc_id e =? d then f e else e.

(** When [m] returns, its response is an [edit_message] whose embed is the
    listing of the catalog [m] leaves. *)
Definition renders_final `{Imported} {A : Type} (response : A -> Response)
           (m : M A) : Prop :=
  forall s : Store,
    match m s with
    | (Ok a, s') =>
        exists embed : Embed,
          response a = edit_message embed /\
          suggestions_embed s' = (Ok embed, s')
    | (Raise _, _) => True
    end.

(** * Properties *)

(** ** The monad *)

Lemma bind_ok {A B : Type} (m : M A) (k : A -> M B) (s s' : Store) (a : A) :
  m s = (Ok a, s') -> bind m k s = k a s'.
Proof. intros E. unfold bind. now rewrite E. Qed.

Lemma bind_raise {A B : Type} (m : M A) (k : A -> M B) (s s' : Store)
      (e : exn) :
  m s = (Raise e, s') -> bind m k s = (Raise e, s').
Proof. intros E. unfold bind. now rewrite E. Qed.

(** ** [sorted] *)

Section SortedFacts.
Context {A : Type} (key : A -> Z).

Lemma insert_perm (x : A) (l : list A) :
  Permutation (Py.insert key x l) (x :: l).
Proof.
  induction l as [|y rest IH]; simpl.
  - apply Permutation_refl.
  - destruct (key x <=? key y).
    + apply Permutation_refl.
    + apply perm_trans with (y :: x :: rest).
      * now apply perm_skip.
      * apply perm_swap.
Qed.

Lemma sorted_perm (l : list A) : Permutation (Py.sorted key l) l.
Proof.
  induction l as [|x rest IH]; simpl.
  - apply perm_nil.
  - apply perm_trans with (x :: Py.sorted key rest).
    + apply insert_perm.
    + now apply perm_skip.
Qed.

Lemma insert_Forall (P : A -> Prop) (x : A) (l : list A) :
  P x -> Forall P l -> Forall P (Py.insert key x l).
Proof.
  intros Hx Hl. induction Hl as [|y rest Hy Hrest IH]; simpl.
  - now constructor.
  - destruct (key x <=? key y); repeat constructor; assumption.
Qed.

Lemma insert_sorted (x : A) (l : list A) :
  StronglySorted (Py.key_le key) l ->
  StronglySorted (Py.key_le key) (Py.insert key x l).
Proof.
  induction 1 as [|y rest Hs IH Hall]; simpl.
  - repeat constructor.
  - destruct (key x <=? key y) eqn:E.
    + apply Z.leb_le in E. constructor.
      * now constructor.
      * constructor; [exact E|].
        eapply Forall_impl; [|exact Hall].
        unfold Py.key_le. intros z Hz. lia.
    + apply Z.leb_gt in E. constructor; [exact IH|].
      apply insert_Forall; [unfold Py.key_le; lia | exact Hall].
Qed.

Lemma sorted_sorted (l : list A) :
  StronglySorted (Py.key_le key) (Py.sorted key l).
Proof.
  induction l as [|x rest IH]; simpl.
  - constructor.
  - now apply insert_sorted.
Qed.

(** In the result, positions follow keys. *)
Lemma sorted_nth (l : list A) (i j : nat) (a b : A) :
  nth_error (Py.sorted key l) i = Some a ->
  nth_error (Py.sorted key l) j = Some b ->
  (i < j)%nat -> key a <= key b.
Proof.
  generalize (sorted_sorted l). generalize (Py.sorted key l) as out.
  intros out Hs. revert i j.
  induction Hs as [|y rest Hs IH Hall]; intros i j Hi Hj Hlt.
  - destruct i; discriminate.
  - destruct j as [|j]; [lia|]. simpl in Hj.
    destruct i as [|i]; simpl in Hi.
    + injection Hi as ->.
      apply nth_error_In in Hj.
      rewrite Forall_forall in Hall. now apply Hall.
    + apply (IH i j); [assumption | assumption | lia].
Qed.

Lemma insert_front (x : A) (l : list A) :
  Forall (Py.key_le key x) l -> Py.insert key x l = x :: l.
Proof.
  intros Hall. destruct Hall as [|y rest Hy _]; simpl.
  - reflexivity.
  - unfold Py.key_le in Hy. apply Z.leb_le in Hy. now rewrite Hy.
Qed.

Lemma Forall_filter (P : A -> Prop) (p : A -> bool) (l : list A) :
  Forall P l -> Forall P (filter p l).
Proof.
  induction 1 as [|y rest Hy _ IH]; simpl.
  - constructor.
  - destruct (p y); [now constructor | exact IH].
Qed.

(** Filtering commutes with insertion into a sorted list. *)
Lemma filter_insert (p : A -> bool) (x : A) (l : list A) :
  StronglySorted (Py.key_le key) l ->
  filter p (Py.insert key x l) =
  if p x then Py.insert key x (filter p l) else filter p l.
Proof.
  induction 1 as [|y rest Hs IH Hall].
  - simpl. now destruct (p x).
  - cbn [Py.insert]. destruct (key x <=? key y) eqn:E.
    + apply Z.leb_le in E.
      change (filter p (x :: y :: rest))
        with (if p x then x :: filter p (y :: rest)
              else filter p (y :: rest)).
      destruct (p x); [|reflexivity].
      symmetry. apply insert_front. apply Forall_filter.
      constructor; [exact E|].
      eapply Forall_impl; [|exact Hall].
      unfold Py.key_le. intros z Hz. lia.
    + cbn [filter]. rewrite IH.
      destruct (p y), (p x); try reflexivity.
      cbn [Py.insert]. now rewrite E.
Qed.

(** Filtering the sorted list is sorting the filtered list: a filter
    keeps the relative order that [sorted] gives. *)
Lemma filter_sorted (p : A -> bool) (l : list A) :
  filter p (Py.sorted key l) = Py.sorted key (filter p l).
Proof.
  induction l as [|x rest IH]; [reflexivity|].
  cbn [Py.sorted]. rewrite filter_insert by apply sorted_sorted.
  cbn [filter]. destruct (p x); [cbn [Py.sorted]|]; now rewrite IH.
Qed.

End SortedFacts.

(** ** The listing *)

(** [suggestions_embed] reads the catalog and leaves it as it is. *)
Lemma suggestions_embed_run `{Imported} (s : Store) :
  suggestions_embed s =
  (Ok (mkEmbed "Suggested works:"
               (Py.join newline (map display_title (Py.sorted status s)))),
   s).
Proof. reflexivity. Qed.

Lemma SuggestionsDropdown_callback_run `{Imported} (i : Interaction)
      (s : Store) :
  SuggestionsDropdown.callback i s =
  (Ok (edit_message
         (mkEmbed "Suggested works:"
                  (Py.join newline (map display_title (Py.sorted status s))))),
   s).
Proof. reflexivity. Qed.

(** C6: the listing shows the entries of the catalog, all of them, sorted
    by [status]; when [status] puts prioritized entries first, every
    prioritized entry is on a line strictly before every entry that is not
    prioritized; and rendering twice in a row gives the same embed, hence
    the same lines, twice, with the catalog untouched. *)
Theorem C6_listing_prioritized_first `{Imported} :
  status_prioritized_first ->
  forall s : Store,
    let entries := Py.sorted status s in
    Permutation entries s /\
    suggestions_embed s =
      (Ok (mkEmbed "Suggested works:"
                   (Py.join newline (map display_title entries))), s) /\
    (forall (i j : nat) (a b : Suggestion),
        nth_error entries i = Some a ->
        nth_error entries j = Some b ->
        is_prioritized a = true ->
        is_prioritized b = false ->
        (i < j)%nat) /\
    (first <- suggestions_embed ;;
     second <- suggestions_embed ;;
     ret (first, second)) s =
      (Ok (mkEmbed "Suggested works:"
                   (Py.join newline (map display_title entries)),
           mkEmbed "Suggested works:"
                   (Py.join newline (map display_title entries))), s).
Proof.
  intros Hstatus s entries. repeat split.
  - apply sorted_perm.
  - intros i j a b Hi Hj Ha Hb.
    destruct (Nat.lt_trichotomy i j) as [Hlt | [Heq | Hgt]].
    + exact Hlt.
    + subst j. rewrite Hi in Hj. injection Hj as ->. congruence.
    + pose proof (sorted_nth status s j i b a Hj Hi Hgt) as Hle.
      pose proof (Hstatus a b Ha Hb). lia.
Qed.

(** ** The menus *)

(** The loop that fills a menu: it adds one option per entry, in order,
    when the menu has room for all of them, and raises [ValueError] at the
    26th option otherwise; the catalog is not touched. *)
Lemma add_options_run {E : Type} (f : E -> SelectOption) (l : list E)
      (self : Select) (s : Store) :
  (List.length (options self) <= 25)%nat ->
  add_options f l self s =
  if (List.length (options self) + List.length l <=? 25)%nat
  then (Ok (mkSelect (min_values self) (max_values self)
                     (options self ++ map f l)), s)
  else (Raise ValueError, s).
Proof.
  revert self. induction l as [|e rest IH]; intros self Hroom.
  - cbn [add_options List.length map]. rewrite Nat.add_0_r, app_nil_r.
    apply Nat.leb_le in Hroom. rewrite Hroom. now destruct self.
  - cbn [add_options List.length map]. unfold bind, add_option.
    destruct (25 <=? List.length (options self))%nat eqn:Efull.
    + apply Nat.leb_le in Efull.
      assert (Hover : (List.length (options self) + S (List.length rest)
                       <=? 25)%nat = false) by (apply Nat.leb_gt; lia).
      now rewrite Hover.
    + apply Nat.leb_gt in Efull. cbn [ret].
      rewrite IH by (cbn [options]; rewrite length_app; cbn; lia).
      cbn [options min_values max_values].
      rewrite length_app. cbn [List.length].
      replace (List.length (options self) + 1 + List.length rest)%nat
        with (List.length (options self) + S (List.length rest))%nat by lia.
      now rewrite <- app_assoc.
Qed.

(** A menu that starts empty. *)
Lemma add_options_fresh {E : Type} (f : E -> SelectOption) (l : list E)
      (lo hi : nat) (s : Store) :
  add_options f l (mkSelect lo hi []) s =
  if (List.length l <=? 25)%nat
  then (Ok (mkSelect lo hi (map f l)), s)
  else (Raise ValueError, s).
Proof.
  rewrite add_options_run by (cbn; lia). reflexivity.
Qed.

(** The menu built for a user. *)
Lemma UserSuggestionsDropdown_init_run `{Imported} (u : Member) (s : Store) :
  UserSuggestionsDropdown.init u s =
  if Nat.leb (List.length (filter (fun e => owner_id e =? id u) s)) 25
  then (Ok (mkSelect 1 1
              (map title_option (filter (fun e => owner_id e =? id u) s))),
        s)
  else (Raise ValueError, s).
Proof.
  unfold UserSuggestionsDropdown.init, Suggestion_from_user. unfold bind.
  apply add_options_fresh.
Qed.


(** ** Authorization *)

(** C2: when [is_lit_chair] is false of the acting user, both checks raise
    [CheckFailure], so pressing the prioritize button and submitting the
    prioritize menu, with any selection, end in [CheckFailure] without
    running the callback: the catalog is the one the attempt found. *)
Theorem C2_unprivileged_prioritize_rejected `{Imported} :
  forall i : Interaction,
    is_lit_chair (user i) = false ->
    forall (values : list string) (s : Store),
      PrioritizeDropdown.interaction_check i s = (Raise CheckFailure, s) /\
      PrioritizeButton.interaction_check i s = (Raise CheckFailure, s) /\
      submit_prioritize values i s = (Raise CheckFailure, s) /\
      press_prioritize i s = (Raise CheckFailure, s).
Proof.
  intros i Hno values s.
  assert (Hd : PrioritizeDropdown.interaction_check i s
               = (Raise CheckFailure, s)).
  { unfold PrioritizeDropdown.interaction_check. now rewrite Hno. }
  assert (Hb : PrioritizeButton.interaction_check i s
               = (Raise CheckFailure, s)).
  { unfold PrioritizeButton.interaction_check. now rewrite Hno. }
  repeat split; try assumption.
  - unfold submit_prioritize, dispatch. now apply bind_raise.
  - unfold press_prioritize, dispatch. now apply bind_raise.
Qed.

(** ** Adding *)

Lemma find_existsb {A : Type} (p : A -> bool) (l : list A) :
  existsb p l = match find p l with Some _ => true | None => false end.
Proof.
  induction l as [|x rest IH]; simpl; [reflexivity|].
  now destruct (p x).
Qed.

Lemma find_app_new {A : Type} (p : A -> bool) (l : list A) (x : A) :
  find p l = None -> p x = true -> find p (l ++ [x]) = Some x.
Proof.
  induction l as [|y rest IH]; simpl; intros Hnone Hx.
  - now rewrite Hx.
  - destruct (p y); [discriminate | now apply IH].
Qed.

Lemma Suggestion_get_inv (t : string) (s s' : Store) (r : result Suggestion) :
  Suggestion_get t s = (r, s') ->
  s' = s /\
  match r with
  | Ok e => find (has_title t) s = Some e
  | Raise err => err = NotFound /\ find (has_title t) s = None
  end.
Proof.
  unfold Suggestion_get. destruct (find (has_title t) s) as [e|];
    intros [= <- <-]; repeat split.
Qed.

(** A title that is in the catalog is refused. *)
Lemma Suggestion_new_duplicate (t : string) (owner total : Z) (n : string)
      (s : Store) (existing : Suggestion) :
  find (has_title t) s = Some existing ->
  Suggestion_new t owner total n s = (Raise DuplicateTitle, s).
Proof.
  intros Hfind. unfold Suggestion_new.
  now rewrite find_existsb, Hfind.
Qed.

(** With no chapter text, the handler is the creation with a count of 0
    followed by the listing. *)
Lemma AddModal_on_submit_blank `{Imported} (f : AddModal.form)
      (i : Interaction) (s : Store) :
  AddModal.CHAPTERS f = None \/ AddModal.CHAPTERS f = Some "" ->
  AddModal.on_submit f i s =
  (Suggestion_new (AddModal.TITLE f) (id (user i)) 0 (AddModal.NOTES f) ;;;
   embed <- suggestions_embed ;;
   ret (edit_message embed)) s.
Proof.
  intros [Hc | Hc]; unfold AddModal.on_submit; rewrite Hc; reflexivity.
Qed.

(** What the handler makes of the chapters input: the count it passes
    on, or [ValueError]. *)
Lemma py_int_empty `{Imported} : py_int "" = None.
Proof. reflexivity. Qed.

Lemma AddModal_on_submit_number `{Imported} (f : AddModal.form)
      (text : string) (k : Z) (i : Interaction) (s : Store) :
  AddModal.CHAPTERS f = Some text ->
  py_int text = Some k ->
  AddModal.on_submit f i s =
  (Suggestion_new (AddModal.TITLE f) (id (user i)) k (AddModal.NOTES f) ;;;
   embed <- suggestions_embed ;;
   ret (edit_message embed)) s.
Proof.
  intros Hc Hint. unfold AddModal.on_submit. rewrite Hc.
  destruct text as [|c rest]; [rewrite py_int_empty in Hint; discriminate|].
  cbn [String.length Nat.ltb Nat.leb].
  unfold int_of. rewrite Hint. reflexivity.
Qed.

Lemma AddModal_on_submit_rejected `{Imported} (f : AddModal.form)
      (text : string) (i : Interaction) (s : Store) :
  AddModal.CHAPTERS f = Some text ->
  text <> "" ->
  py_int text = None ->
  AddModal.on_submit f i s = (Raise ValueError, s).
Proof.
  intros Hc Hne Hint. unfold AddModal.on_submit. rewrite Hc.
  destruct text as [|c rest]; [contradiction|].
  cbn [String.length Nat.ltb Nat.leb].
  apply bind_raise. unfold int_of. now rewrite Hint.
Qed.

(** C4, as the code has it: when the catalog holds a suggestion with title
    [t], the add form submitted with title [t] creates nothing: the
    catalog after it is the catalog before it, and [get] still finds the
    existing record.  The handler fails with [DuplicateTitle] when the
    chapters input is absent, empty or a text [int] accepts, and with
    [ValueError], which [int] raises before the store is asked, when the
    chapters input is a non-empty text [int] rejects. *)
Theorem C4_duplicate_title_rejected `{Imported} :
  forall (s : Store) (t : string) (existing : Suggestion),
    Suggestion_get t s = (Ok existing, s) ->
    forall (chapters : option string) (n : string) (i : Interaction),
      snd (AddModal.on_submit (AddModal.mkForm t chapters n) i s) = s /\
      Suggestion_get t
        (snd (AddModal.on_submit (AddModal.mkForm t chapters n) i s))
      = (Ok existing, s) /\
      (chapters = None \/ chapters = Some "" \/
       (exists (text : string) (k : Z),
           chapters = Some text /\ py_int text = Some k) ->
       AddModal.on_submit (AddModal.mkForm t chapters n) i s
       = (Raise DuplicateTitle, s)) /\
      (forall text : string,
          chapters = Some text -> text <> "" -> py_int text = None ->
          AddModal.on_submit (AddModal.mkForm t chapters n) i s
          = (Raise ValueError, s)).
Proof.
  intros s t existing Hget chapters n i.
  destruct (Suggestion_get_inv _ _ _ _ Hget) as [_ Hfind].
  assert (Hdup : forall k : Z,
             (Suggestion_new t (id (user i)) k n ;;;
              embed <- suggestions_embed ;;
              ret (edit_message embed)) s = (Raise DuplicateTitle, s)).
  { intros k. apply bind_raise.
    apply (Suggestion_new_duplicate _ _ _ _ _ _ Hfind). }
  assert (Haccepted :
            chapters = None \/ chapters = Some "" \/
            (exists (text : string) (k : Z),
                chapters = Some text /\ py_int text = Some k) ->
            AddModal.on_submit (AddModal.mkForm t chapters n) i s
            = (Raise DuplicateTitle, s)).
  { intros [Hc | [Hc | [text [k [Hc Hint]]]]]; subst chapters.
    - rewrite AddModal_on_submit_blank by (left; reflexivity). apply Hdup.
    - rewrite AddModal_on_submit_blank by (right; reflexivity). apply Hdup.
    - rewrite (AddModal_on_submit_number
                 (AddModal.mkForm t (Some text) n) text k i s eq_refl Hint).
      apply Hdup. }
  assert (Hrejected :
            forall text : string,
              chapters = Some text -> text <> "" -> py_int text = None ->
              AddModal.on_submit (AddModal.mkForm t chapters n) i s
              = (Raise ValueError, s)).
  { intros text Hc Hne Hint. subst chapters.
    apply (AddModal_on_submit_rejected
             (AddModal.mkForm t (Some text) n) text i s eq_refl Hne Hint). }
  assert (Hstore :
            snd (AddModal.on_submit (AddModal.mkForm t chapters n) i s) = s).
  { destruct chapters as [text|].
    - destruct text as [|c rest].
      + rewrite Haccepted by (right; left; reflexivity). reflexivity.
      + destruct (py_int (String c rest)) as [k|] eqn:Hint.
        * rewrite Haccepted; [reflexivity|].
          right. right. exists (String c rest), k. now split.
        * rewrite (Hrejected (String c rest) eq_refl); [reflexivity | |].
          -- discriminate.
          -- exact Hint.
    - rewrite Haccepted by (left; reflexivity). reflexivity. }
  split; [exact Hstore|]. split; [now rewrite Hstore|].
  split; [exact Haccepted | exact Hrejected].
Qed.

(** C10: when the chapters input is absent or empty, the handler creates
    the suggestion with a chapter count of 0: it is the creation with
    count 0 followed by the listing, and when the title is new and the
    notes are not empty the record that joins the catalog, the one [get]
    finds under the title, has [total_ch = 0]. *)
Theorem C10_blank_chapters_mean_zero `{Imported} :
  forall (f : AddModal.form) (i : Interaction) (s : Store),
    AddModal.CHAPTERS f = None \/ AddModal.CHAPTERS f = Some "" ->
    Suggestion_get (AddModal.TITLE f) s = (Raise NotFound, s) ->
    AddModal.NOTES f <> "" ->
    let created :=
      mkSuggestion (fresh_doc_id s) (AddModal.TITLE f) (id (user i)) 0 0
                   (AddModal.NOTES f) false in
    AddModal.on_submit f i s =
      (Suggestion_new (AddModal.TITLE f) (id (user i)) 0 (AddModal.NOTES f) ;;;
       embed <- suggestions_embed ;;
       ret (edit_message embed)) s /\
    (exists embed : Embed,
        AddModal.on_submit f i s = (Ok (edit_message embed), s ++ [created])) /\
    Suggestion_get (AddModal.TITLE f) (s ++ [created])
    = (Ok created, s ++ [created]) /\
    total_ch created = 0.
Proof.
  intros f i s Hblank Hnew Hnotes created.
  destruct (Suggestion_get_inv _ _ _ _ Hnew) as [_ [_ Hfind]].
  assert (Hcreate :
            Suggestion_new (AddModal.TITLE f) (id (user i)) 0
                           (AddModal.NOTES f) s
            = (Ok created, s ++ [created])).
  { unfold Suggestion_new. rewrite find_existsb, Hfind.
    destruct (String.eqb_spec (AddModal.NOTES f) "") as [E|_];
      [contradiction | reflexivity]. }
  repeat split.
  - now apply AddModal_on_submit_blank.
  - eexists. rewrite (AddModal_on_submit_blank f i s Hblank).
    rewrite (bind_ok _ _ _ _ _ Hcreate). reflexivity.
  - unfold Suggestion_get.
    rewrite (find_app_new _ s created Hfind); [reflexivity|].
    apply String.eqb_refl.
Qed.

(** C8, as the code has it: when the chapters input holds a non-empty text
    that [int] rejects, [int] raises [ValueError] and nothing in the
    handler catches it: the handler ends in [ValueError] before
    [Suggestion.new] is called and before any response is sent, and the
    catalog is the one it found. *)
Theorem C8_bad_chapters_raise_ValueError `{Imported} :
  forall (f : AddModal.form) (text : string) (i : Interaction) (s : Store),
    AddModal.CHAPTERS f = Some text ->
    text <> "" ->
    py_int text = None ->
    AddModal.on_submit f i s = (Raise ValueError, s).
Proof.
  intros f text i s Hc Hne Hint.
  now apply (AddModal_on_submit_rejected f text i s).
Qed.

(** ** Removing *)

(** Whatever is selected, the first [entry.remove()] raises: the handler
    ends in [AttributeError], removes nothing and renders nothing. *)
Lemma RemoveDropdown_callback_raises `{Imported} (v : string)
      (vs : list string) (i : Interaction) (s : Store) :
  RemoveDropdown.callback (v :: vs) i s = (Raise AttributeError, s).
Proof. reflexivity. Qed.

(** ** Frame rules *)

Section Frames.
Context (R : Store -> Store -> Prop).
Hypothesis R_refl : forall s, R s s.
Hypothesis R_trans : forall s1 s2 s3, R s1 s2 -> R s2 s3 -> R s1 s3.

Lemma preserves_ret {A : Type} (a : A) : preserves R (ret a).
Proof. intros s. apply R_refl. Qed.

Lemma preserves_raise {A : Type} (e : exn) : preserves R (@raise A e).
Proof. intros s. apply R_refl. Qed.

Lemma preserves_bind {A B : Type} (m : M A) (k : A -> M B) :
  preserves R m -> (forall a, preserves R (k a)) -> preserves R (bind m k).
Proof.
  intros Hm Hk s. unfold bind. specialize (Hm s).
  destruct (m s) as [[a|e] s1]; simpl in *.
  - eapply R_trans; [exact Hm | apply Hk].
  - exact Hm.
Qed.

Lemma preserves_for_each {A : Type} (l : list A) (body : A -> M unit) :
  (forall x, preserves R (body x)) -> preserves R (for_each l body).
Proof.
  intros Hbody. induction l as [|x rest IH]; simpl.
  - apply preserves_ret.
  - apply preserves_bind; [apply Hbody | intros _; exact IH].
Qed.

Lemma preserves_comprehension {A B : Type} (f : A -> M B) (l : list A) :
  (forall x, preserves R (f x)) -> preserves R (comprehension f l).
Proof.
  intros Hf. induction l as [|x rest IH]; simpl.
  - apply preserves_ret.
  - apply preserves_bind; [apply Hf | intros y].
    apply preserves_bind; [exact IH | intros ys; apply preserves_ret].
Qed.

Lemma preserves_new_session {A : Type} (body : M A) :
  preserves R body -> preserves R (new_session body).
Proof.
  intros Hb s. unfold new_session. specialize (Hb s).
  destruct (body s) as [[a|e] s1]; simpl in *; [exact Hb | apply R_refl].
Qed.

Lemma preserves_int_of `{Imported} (text : string) :
  preserves R (int_of text).
Proof.
  unfold int_of. destruct (py_int text);
    [apply preserves_ret | apply preserves_raise].
Qed.

Lemma preserves_Suggestion_get (t : string) : preserves R (Suggestion_get t).
Proof.
  intros s. unfold Suggestion_get.
  destruct (find (has_title t) s); apply R_refl.
Qed.

Lemma preserves_suggestions_embed `{Imported} : preserves R suggestions_embed.
Proof. intros s. apply R_refl. Qed.

Lemma preserves_SuggestionsDropdown_callback `{Imported} (i : Interaction) :
  preserves R (SuggestionsDropdown.callback i).
Proof. intros s. apply R_refl. Qed.

End Frames.

Lemma returns_ret {A : Type} (P : A -> Prop) (a : A) : P a -> returns P (ret a).
Proof. intros Ha s. exact Ha. Qed.

Lemma returns_raise {A : Type} (P : A -> Prop) (e : exn) :
  returns P (raise e).
Proof. intros s. exact I. Qed.

Lemma returns_bind {A B : Type} (P : A -> Prop) (Q : B -> Prop) (m : M A)
      (k : A -> M B) :
  returns P m -> (forall a, P a -> returns Q (k a)) -> returns Q (bind m k).
Proof.
  intros Hm Hk s. unfold bind. specialize (Hm s).
  destruct (m s) as [[a|e] s1]; simpl in *.
  - apply (Hk a Hm).
  - exact I.
Qed.

Lemma returns_new_session {A : Type} (P : A -> Prop) (body : M A) :
  returns P body -> returns P (new_session body).
Proof.
  intros Hb s. unfold new_session. specialize (Hb s).
  destruct (body s) as [[a|e] s1]; simpl in *; [exact Hb | exact I].
Qed.

Lemma returns_assign (P : Suggestion -> Prop) (sug : Suggestion)
      (f : Suggestion -> Suggestion) :
  P (f sug) -> returns P (assign sug f).
Proof. intros Hf s. exact Hf. Qed.

Lemma same_column_refl {B : Type} (proj : Suggestion -> B) (s : Store) :
  same_column proj s s.
Proof. reflexivity. Qed.

Lemma same_column_trans {B : Type} (proj : Suggestion -> B)
      (s1 s2 s3 : Store) :
  same_column proj s1 s2 -> same_column proj s2 s3 -> same_column proj s1 s3.
Proof. unfold same_column. congruence. Qed.

(** An assignment that does not touch [proj] keeps its column. *)
Lemma preserves_assign_column {B : Type} (proj : Suggestion -> B)
      (sug : Suggestion) (f : Suggestion -> Suggestion) :
  (forall e, proj (f e) = proj e) ->
  preserves (same_column proj) (assign sug f).
Proof.
  intros Hf s. unfold same_column, assign. simpl.
  rewrite map_map. apply map_ext. intros e.
  destruct (doc_id e =? doc_id sug); [apply Hf | reflexivity].
Qed.

Lemma flags_kept_refl (s : Store) : flags_kept s s.
Proof.
  unfold flags_kept. induction s as [|e rest IH]; constructor; auto.
Qed.

Lemma flags_kept_trans (s1 s2 s3 : Store) :
  flags_kept s1 s2 -> flags_kept s2 s3 -> flags_kept s1 s3.
Proof.
  unfold flags_kept. intros H12. revert s3.
  induction H12 as [|a b l1 l2 Hab _ IH]; intros s3 H23.
  - inversion H23. constructor.
  - inversion H23 as [|b' c l2' l3 Hbc Hrest]; subst.
    constructor; [auto | now apply IH].
Qed.

Lemma preserves_assign_flag (sug : Suggestion) :
  preserves flags_kept (assign sug (set_is_prioritized true)).
Proof.
  intros s. unfold flags_kept, assign. simpl.
  induction s as [|e rest IH]; simpl; constructor; [|exact IH].
  destruct (doc_id e =? doc_id sug); simpl; auto.
Qed.

(** ** Editing *)

(** The three assignments of the edit block leave alone every column they
    do not name. *)
Lemma on_submit_block_column `{Imported} {B : Type}
      (proj : Suggestion -> B)
      (self : EditModalState) (values : EditModal.form) :
  (forall v e, proj (set_title v e) = proj e) ->
  (forall v e, proj (set_next_ch v e) = proj e) ->
  (forall v e, proj (set_total_ch v e) = proj e) ->
  preserves (same_column proj) (EditModal.on_submit_block self values).
Proof.
  intros Ht Hn Hc.
  pose proof (same_column_refl proj) as Hrefl.
  pose proof (same_column_trans proj) as Htrans.
  unfold EditModal.on_submit_block.
  apply preserves_bind; auto using preserves_assign_column. intros sug1.
  apply preserves_bind; auto.
  { destruct (0 <? _)%nat; auto using preserves_ret.
    apply preserves_bind; auto using preserves_int_of,
                                     preserves_assign_column. }
  intros sug2.
  apply preserves_bind; auto using preserves_ret.
  destruct (0 <? _)%nat; auto using preserves_ret.
  apply preserves_bind; auto using preserves_int_of,
                                   preserves_assign_column.
Qed.

Lemma on_submit_column `{Imported} {B : Type} (proj : Suggestion -> B)
      (self : EditModalState) (values : EditModal.form) (i : Interaction) :
  (forall v e, proj (set_title v e) = proj e) ->
  (forall v e, proj (set_next_ch v e) = proj e) ->
  (forall v e, proj (set_total_ch v e) = proj e) ->
  preserves (same_column proj) (EditModal.on_submit self values i).
Proof.
  intros Ht Hn Hc.
  pose proof (same_column_refl proj) as Hrefl.
  pose proof (same_column_trans proj) as Htrans.
  unfold EditModal.on_submit.
  apply (preserves_bind _ Htrans).
  - apply preserves_new_session; auto.
    now apply on_submit_block_column.
  - intros self'. apply preserves_bind; auto using preserves_ret.
Qed.

(** No edit writes the notes of a stored suggestion: the notes column of
    the catalog is the same after [on_submit], for every submission. *)
Lemma on_submit_keeps_notes `{Imported} (self : EditModalState)
      (values : EditModal.form) (i : Interaction) (s : Store) :
  map notes (snd (EditModal.on_submit self values i s)) = map notes s.
Proof. apply (on_submit_column notes self values i); reflexivity. Qed.

(** The copy of the suggestion the modal holds keeps [proj] as well. *)
Lemma on_submit_block_returns `{Imported} {B : Type}
      (proj : Suggestion -> B)
      (self : EditModalState) (values : EditModal.form) :
  (forall v e, proj (set_title v e) = proj e) ->
  (forall v e, proj (set_next_ch v e) = proj e) ->
  (forall v e, proj (set_total_ch v e) = proj e) ->
  returns (fun self' => proj (suggestion self') = proj (suggestion self))
          (EditModal.on_submit_block self values).
Proof.
  intros Ht Hn Hc.
  set (P := fun sug : Suggestion => proj sug = proj (suggestion self)).
  unfold EditModal.on_submit_block.
  apply returns_bind with (P := P).
  { apply returns_assign. apply Ht. }
  intros sug1 H1.
  apply returns_bind with (P := P).
  { destruct (0 <? _)%nat; [|now apply returns_ret].
    apply returns_bind with (P := fun _ => True).
    - intros s. now destruct (fst _).
    - intros n _. apply returns_assign. unfold P. now rewrite Hn. }
  intros sug2 H2.
  apply returns_bind with (P := P).
  { destruct (0 <? _)%nat; [|now apply returns_ret].
    apply returns_bind with (P := fun _ => True).
    - intros s. now destruct (fst _).
    - intros n _. apply returns_assign. unfold P. now rewrite Hc. }
  intros sug3 H3. apply returns_ret. exact H3.
Qed.

(** C9: an edit submission never changes an owner: after [on_submit],
    whatever was submitted and whether it returned or raised, the catalog
    has the same records ([doc_id] column) with the same owners
    ([owner_id] column), and the suggestion the modal holds has the owner
    it had. *)
Theorem C9_edit_keeps_owner `{Imported} :
  forall (self : EditModalState) (values : EditModal.form) (i : Interaction)
         (s : Store),
    map doc_id (snd (EditModal.on_submit self values i s)) = map doc_id s /\
    map owner_id (snd (EditModal.on_submit self values i s))
    = map owner_id s /\
    match fst (EditModal.on_submit self values i s) with
    | Ok (self', _) => owner_id (suggestion self') = owner_id (suggestion self)
    | Raise _ => True
    end.
Proof.
  intros self values i s. repeat split.
  - apply (on_submit_column doc_id self values i); reflexivity.
  - apply (on_submit_column owner_id self values i); reflexivity.
  - assert (Hret : returns
                     (fun p : EditModalState * Response =>
                        owner_id (suggestion (fst p))
                        = owner_id (suggestion self))
                     (EditModal.on_submit self values i)).
    { unfold EditModal.on_submit.
      apply returns_bind
        with (P := fun self' => owner_id (suggestion self')
                                = owner_id (suggestion self)).
      - apply returns_new_session.
        apply (on_submit_block_returns owner_id); reflexivity.
      - intros self' Hself'.
        apply returns_bind with (P := fun _ => True).
        + intros s0. exact I.
        + intros embed _. apply returns_ret. exact Hself'. }
    specialize (Hret s).
    destruct (fst (EditModal.on_submit self values i s)) as [[self' r]|e];
      [exact Hret | exact I].
Qed.

(** C3, at a submission that changes all four fields of "Dune": the new
    title and both chapter numbers are in the catalog after the commit,
    the notes are not.  The submitted notes are in the attribute [notes]
    of the modal; the stored record keeps "classic". *)
Theorem C3_edit_commits_without_notes :
  let submitted := EditModal.mkForm "Dune II" "3" "12" "revised" in
  let stored := mkSuggestion 1 "Dune II" 7 12 3 "classic" true in
  exists embed : Embed,
    (modal <- EditModal.init "Dune" ;;
     @EditModal.on_submit example_imports modal submitted reader)
      [dune; emma]
    = (Ok (mkEditModal stored "Dune" 0 0 "classic" (Some "revised"),
           edit_message embed),
       [stored; emma]) /\
    title stored = EditModal.TITLE submitted /\
    notes stored <> EditModal.NOTES submitted /\
    notes stored = notes dune.
Proof.
  eexists. repeat split. discriminate.
Qed.

(** ** Prioritizing *)

(** The prioritize callback sets flags and clears none: row by row, an
    entry that was prioritized before a submission is prioritized after
    it, whatever was selected. *)
Lemma prioritize_never_clears `{Imported} (values : list string)
      (i : Interaction) (s : Store) :
  flags_kept s (snd (PrioritizeDropdown.callback values i s)).
Proof.
  pose proof flags_kept_refl as Hrefl.
  pose proof flags_kept_trans as Htrans.
  revert s. fold (preserves flags_kept (PrioritizeDropdown.callback values i)).
  unfold PrioritizeDropdown.callback, SuggestionsDropdown.get_all.
  apply (preserves_bind _ Htrans).
  - apply (preserves_comprehension _ Hrefl Htrans).
    intros t. apply (preserves_Suggestion_get _ Hrefl).
  - intros sugs. apply (preserves_bind _ Htrans).
    + apply (preserves_for_each _ Hrefl Htrans). intros sug.
      apply (preserves_bind _ Htrans).
      * apply preserves_assign_flag.
      * intros _. apply (preserves_ret _ Hrefl).
    + intros _. apply (preserves_SuggestionsDropdown_callback _ Hrefl).
Qed.

(** C1, at a catalog where "Dune" is prioritized and "Emma" is not.  The
    menu is built with "Dune" checked and may be submitted with nothing
    selected.  The chair unchecks "Dune" and submits the empty selection:
    the callback returns the listing and "Dune" is still prioritized. *)
Theorem C1_prioritize_leaves_unselected_set :
  PrioritizeDropdown.init [dune; emma]
  = (Ok (mkSelect 0 2 [mkOption "Dune" (DocIdValue 1) true;
                       mkOption "Emma" (DocIdValue 2) false]),
     [dune; emma]) /\
  @submit_prioritize example_imports [] chair [dune; emma]
  = (Ok (Some (edit_message
                 (mkEmbed "Suggested works:"
                          (Py.join newline ["Dune"; "Emma"])))),
     [dune; emma]) /\
  is_prioritized dune = true.
Proof. repeat split. Qed.

(** C5, at a catalog where the reader owns "Dune".  The remove menu
    offers "Dune"; the reader selects it: the callback ends in
    [AttributeError], "Dune" is still in the catalog and [get] finds it. *)
Theorem C5_remove_flow_raises :
  (exists menu : Select,
      @RemoveButton.callback example_imports reader [dune; emma]
      = (Ok (send_message "Which suggestions would you like to remove?"
                          menu true), [dune; emma]) /\
      options menu = [mkOption "Dune" (TitleValue "Dune") false]) /\
  @RemoveDropdown.callback example_imports ["Dune"] reader [dune; emma]
  = (Raise AttributeError, [dune; emma]) /\
  Suggestion_get "Dune" [dune; emma] = (Ok dune, [dune; emma]).
Proof.
  split; [eexists; split; reflexivity | split; reflexivity].
Qed.

(** ** Instances *)

(** A reader without the chair's role submits the prioritize menu. *)
Lemma C2_unprivileged_witness :
  @is_lit_chair example_imports (user reader) = false /\
  @submit_prioritize example_imports ["Emma"] reader [dune; emma]
  = (Raise CheckFailure, [dune; emma]) /\
  @press_prioritize example_imports reader [dune; emma]
  = (Raise CheckFailure, [dune; emma]).
Proof.
  split; [reflexivity|].
  pose proof (@C2_unprivileged_prioritize_rejected example_imports reader
                eq_refl ["Emma"] [dune; emma]) as [_ [_ [Hs Hp]]].
  split; [exact Hs | exact Hp].
Defined.

(** "Dune" is in the catalog; a second "Dune" with 12 chapters is refused
    and the first is still there. *)
Lemma C4_duplicate_witness :
  Suggestion_get "Dune" [dune] = (Ok dune, [dune]) /\
  @AddModal.on_submit example_imports
     (AddModal.mkForm "Dune" (Some "12") "dup") chair [dune]
  = (Raise DuplicateTitle, [dune]) /\
  Suggestion_get "Dune"
    (snd (@AddModal.on_submit example_imports
            (AddModal.mkForm "Dune" (Some "12") "dup") chair [dune]))
  = (Ok dune, [dune]).
Proof.
  split; [reflexivity|].
  pose proof (@C4_duplicate_title_rejected example_imports [dune] "Dune" dune
                eq_refl (Some "12") "dup" chair)
    as [_ [Hkept [Haccepted _]]].
  split; [|exact Hkept].
  apply Haccepted. right. right. exists "12", 12. split; reflexivity.
Defined.

(** C4 as the claim has it fails when the chapters input holds "abc":
    "Dune" is in the catalog and a second "Dune" is submitted, and the
    submission fails with [ValueError], not with [DuplicateTitle]. *)
Lemma C4_bad_chapters_not_DuplicateTitle :
  Suggestion_get "Dune" [dune] = (Ok dune, [dune]) /\
  @AddModal.on_submit example_imports
     (AddModal.mkForm "Dune" (Some "abc") "dup") chair [dune]
  = (Raise ValueError, [dune]) /\
  fst (@AddModal.on_submit example_imports
         (AddModal.mkForm "Dune" (Some "abc") "dup") chair [dune])
  <> Raise DuplicateTitle.
Proof.
  split; [reflexivity|]. split; [reflexivity | discriminate].
Qed.

(** [flag_status] puts prioritized entries first, and the listing of
    "Emma" then "Dune" shows "Dune" first. *)
Lemma C6_listing_witness :
  @status_prioritized_first example_imports /\
  @suggestions_embed example_imports [emma; dune]
  = (Ok (mkEmbed "Suggested works:" (Py.join newline ["Dune"; "Emma"])),
     [emma; dune]).
Proof.
  assert (Hstatus : @status_prioritized_first example_imports).
  { intros a b Ha Hb. simpl. unfold flag_status. rewrite Ha, Hb. lia. }
  split; [exact Hstatus|].
  exact (proj1 (proj2 (@C6_listing_prioritized_first example_imports Hstatus
                         [emma; dune]))).
Defined.

(** The chapters input holds "abc". *)
Lemma C8_bad_chapters_witness :
  "abc" <> "" /\
  @py_int example_imports "abc" = None /\
  @AddModal.on_submit example_imports
     (AddModal.mkForm "Ulysses" (Some "abc") "joyce") reader [dune]
  = (Raise ValueError, [dune]).
Proof.
  assert (Hne : "abc" <> "") by discriminate.
  split; [exact Hne|]. split; [reflexivity|].
  exact (@C8_bad_chapters_raise_ValueError example_imports
           (AddModal.mkForm "Ulysses" (Some "abc") "joyce") "abc" reader
           [dune] eq_refl Hne eq_refl).
Defined.

(** C8 as the claim has it fails at "abc": the submission does not fail
    with [InvalidInput], and no response goes to the user; [ValueError]
    leaves the handler. *)
Lemma C8_not_InvalidInput :
  "abc" <> "" /\
  Py.int "abc" = None /\
  fst (@AddModal.on_submit example_imports
         (AddModal.mkForm "Ulysses" (Some "abc") "joyce") reader [dune])
  <> Raise InvalidInput /\
  (forall r : Response,
      fst (@AddModal.on_submit example_imports
             (AddModal.mkForm "Ulysses" (Some "abc") "joyce") reader [dune])
      <> Ok r) /\
  fst (@AddModal.on_submit example_imports
         (AddModal.mkForm "Ulysses" (Some "abc") "joyce") reader [dune])
  = Raise ValueError.
Proof.
  repeat split; try discriminate.
Qed.

(** The chapters input is absent; "Ulysses" is new. *)
Lemma C10_blank_chapters_witness :
  Suggestion_get "Ulysses" [dune] = (Raise NotFound, [dune]) /\
  "joyce" <> "" /\
  Suggestion_get "Ulysses"
    (snd (@AddModal.on_submit example_imports
            (AddModal.mkForm "Ulysses" None "joyce") reader [dune]))
  = (Ok (mkSuggestion 2 "Ulysses" 7 0 0 "joyce" false),
     [dune; mkSuggestion 2 "Ulysses" 7 0 0 "joyce" false]).
Proof.
  assert (Hne : "joyce" <> "") by discriminate.
  split; [reflexivity|]. split; [exact Hne|].
  pose proof (@C10_blank_chapters_mean_zero example_imports
                (AddModal.mkForm "Ulysses" None "joyce") reader [dune]
                (or_introl eq_refl) eq_refl Hne) as [_ [_ [Hget _]]].
  exact Hget.
Defined.

(** * Further properties of the handlers *)

(** ** Lookups *)

Lemma find_map_title (g : Suggestion -> Suggestion) (t : string) (s : Store) :
  (forall e, title (g e) = title e) ->
  find (has_title t) (map g s) = option_map g (find (has_title t) s).
Proof.
  intros Hg. induction s as [|e rest IH]; simpl; [reflexivity|].
  unfold has_title at 1. rewrite Hg. fold (has_title t e).
  destruct (has_title t e); [reflexivity | exact IH].
Qed.

Lemma find_has_title (t : string) (s : Store) (e : Suggestion) :
  find (has_title t) s = Some e -> In e s /\ title e = t.
Proof.
  intros Hfind. apply find_some in Hfind. destruct Hfind as [Hin Ht].
  split; [exact Hin|]. now apply String.eqb_eq.
Qed.

Lemma NoDup_map_eq {A B : Type} (f : A -> B) (l : list A) (a b : A) :
  NoDup (map f l) -> In a l -> In b l -> f a = f b -> a = b.
Proof.
  induction l as [|x rest IH]; simpl; intros Hnd Ha Hb Hf; [contradiction|].
  inversion Hnd as [|y ys Hnotin Hrest]; subst.
  destruct Ha as [-> | Ha], Hb as [-> | Hb].
  - reflexivity.
  - exfalso. apply Hnotin. rewrite Hf. now apply in_map.
  - exfalso. apply Hnotin. rewrite <- Hf. now apply in_map.
  - now apply IH.
Qed.

Lemma Suggestion_get_find (t : string) (s : Store) :
  Suggestion_get t s =
  match find (has_title t) s with
  | Some e => (Ok e, s)
  | None => (Raise NotFound, s)
  end.
Proof. reflexivity. Qed.

(** [get_all] reads: the catalog it leaves is the one it found. *)
Lemma get_all_store (values : list string) (s : Store) :
  snd (SuggestionsDropdown.get_all values s) = s.
Proof.
  symmetry. revert s.
  apply (preserves_comprehension eq (@eq_refl Store) (@eq_trans Store)).
  intros t. apply (preserves_Suggestion_get eq (@eq_refl Store)).
Qed.

(** When [get_all] returns, it returns what [get] finds, value by value. *)
Lemma get_all_found (values : list string) (s s1 : Store)
      (sugs : list Suggestion) :
  SuggestionsDropdown.get_all values s = (Ok sugs, s1) ->
  Forall2 (fun t e => find (has_title t) s = Some e) values sugs.
Proof.
  unfold SuggestionsDropdown.get_all. revert sugs s1.
  induction values as [|t rest IH]; intros sugs s1.
  - intros [= <- _]. constructor.
  - cbn [comprehension]. unfold bind at 1. rewrite Suggestion_get_find.
    destruct (find (has_title t) s) as [e|] eqn:Efind; [|discriminate].
    unfold bind at 1.
    destruct (comprehension Suggestion_get rest s) as [[ys|err] s2];
      [|discriminate].
    intros [= <- _]. constructor; [exact Efind|].
    now apply (IH ys s2).
Qed.

(** One value that [get] does not find makes [get_all] raise. *)
Lemma get_all_missing (values : list string) (t : string) (s : Store) :
  In t values ->
  find (has_title t) s = None ->
  SuggestionsDropdown.get_all values s = (Raise NotFound, s).
Proof.
  unfold SuggestionsDropdown.get_all.
  induction values as [|t0 rest IH]; intros Hin Hnone; [contradiction|].
  cbn [comprehension]. unfold bind at 1. rewrite Suggestion_get_find.
  destruct (find (has_title t0) s) as [e|] eqn:Efind; [|reflexivity].
  destruct Hin as [-> | Hin]; [congruence|].
  unfold bind at 1. now rewrite (IH Hin Hnone).
Qed.

(** [get_all] after a change of the rows that keeps their titles. *)
Lemma get_all_map (g : Suggestion -> Suggestion) (values : list string)
      (s : Store) :
  (forall e, title (g e) = title e) ->
  SuggestionsDropdown.get_all values (map g s) =
  match SuggestionsDropdown.get_all values s with
  | (Ok sugs, _) => (Ok (map g sugs), map g s)
  | (Raise err, _) => (Raise err, map g s)
  end.
Proof.
  intros Hg. unfold SuggestionsDropdown.get_all.
  induction values as [|t rest IH]; [reflexivity|].
  cbn [comprehension]. unfold bind at 1 3. rewrite !Suggestion_get_find.
  rewrite (find_map_title g t s Hg).
  destruct (find (has_title t) s) as [e|]; [|reflexivity].
  cbn [option_map]. unfold bind at 1 2. rewrite IH.
  destruct (comprehension Suggestion_get rest s) as [[ys|err] s1];
    reflexivity.
Qed.

(** ** What a prioritize submission does *)

Lemma selected_row_flagged (sugs sugs' : list Suggestion) (e : Suggestion) :
  selected_row sugs (flag_selected sugs' e) = selected_row sugs e.
Proof.
  unfold flag_selected. now destruct (selected_row sugs' e).
Qed.

(** The loop of the callback flags the selected rows and no other. *)
Lemma for_each_flag (sugs : list Suggestion) (s : Store) :
  for_each sugs (fun sug => assign sug (set_is_prioritized true) ;;; ret tt) s
  = (Ok tt, map (flag_selected sugs) s).
Proof.
  revert s. induction sugs as [|sug rest IH]; intros s.
  - cbn. now rewrite map_id.
  - cbn [for_each]. unfold bind at 1 2, assign, ret. rewrite IH.
    rewrite map_map. f_equal. apply map_ext. intros e.
    unfold flag_selected, selected_row. cbn [existsb].
    destruct (doc_id e =? doc_id sug) eqn:E; cbn [orb]; [|reflexivity].
    cbn [doc_id set_is_prioritized].
    now destruct (existsb (fun sug0 => doc_id e =? doc_id sug0) rest).
Qed.

Lemma flag_selected_title (sugs : list Suggestion) (e : Suggestion) :
  title (flag_selected sugs e) = title e.
Proof. unfold flag_selected. now destruct (selected_row sugs e). Qed.

Lemma selected_row_map (sugs' sugs : list Suggestion) (e : Suggestion) :
  selected_row (map (flag_selected sugs') sugs) e = selected_row sugs e.
Proof.
  unfold selected_row. induction sugs as [|sug rest IH]; [reflexivity|].
  cbn [map existsb]. rewrite IH. f_equal.
  unfold flag_selected. now destruct (selected_row sugs' sug).
Qed.

Lemma flag_selected_twice (sugs : list Suggestion) (e : Suggestion) :
  flag_selected (map (flag_selected sugs) sugs) (flag_selected sugs e)
  = flag_selected sugs e.
Proof.
  unfold flag_selected at 1.
  rewrite selected_row_map, selected_row_flagged.
  unfold flag_selected. now destruct (selected_row sugs e).
Qed.

(** The callback when every selected value is found. *)
Lemma PrioritizeDropdown_callback_ok `{Imported} (values : list string)
      (i : Interaction) (s : Store) (sugs : list Suggestion) :
  SuggestionsDropdown.get_all values s = (Ok sugs, s) ->
  PrioritizeDropdown.callback values i s =
  (Ok (edit_message
         (mkEmbed "Suggested works:"
            (Py.join newline
               (map display_title
                    (Py.sorted status (map (flag_selected sugs) s)))))),
   map (flag_selected sugs) s).
Proof.
  intros Hget. unfold PrioritizeDropdown.callback.
  rewrite (bind_ok _ _ _ _ _ Hget).
  rewrite (bind_ok _ _ _ _ _ (for_each_flag sugs s)).
  reflexivity.
Qed.

(** The callback when [get_all] raises. *)
Lemma PrioritizeDropdown_callback_raise `{Imported} (values : list string)
      (i : Interaction) (s : Store) (err : exn) :
  SuggestionsDropdown.get_all values s = (Raise err, s) ->
  PrioritizeDropdown.callback values i s = (Raise err, s).
Proof.
  intros Hget. unfold PrioritizeDropdown.callback. now apply bind_raise.
Qed.

(** X2: when one of the selected values is not found, the prioritize
    callback raises [NotFound] before its loop runs: no flag is set, also
    not on the selected values that were found, and no listing is sent. *)
Theorem X2_prioritize_missing_value_changes_nothing `{Imported} :
  forall (values : list string) (i : Interaction) (s : Store) (t : string),
    In t values ->
    Suggestion_get t s = (Raise NotFound, s) ->
    PrioritizeDropdown.callback values i s = (Raise NotFound, s).
Proof.
  intros values i s t Hin Hget.
  apply PrioritizeDropdown_callback_raise.
  apply (get_all_missing values t s Hin).
  rewrite Suggestion_get_find in Hget.
  now destruct (find (has_title t) s).
Qed.

Lemma X2_prioritize_missing_witness :
  In "Ulysses" ["Emma"; "Ulysses"] /\
  Suggestion_get "Ulysses" [dune; emma] = (Raise NotFound, [dune; emma]) /\
  @PrioritizeDropdown.callback example_imports ["Emma"; "Ulysses"] chair
     [dune; emma]
  = (Raise NotFound, [dune; emma]).
Proof.
  assert (Hin : In "Ulysses" ["Emma"; "Ulysses"]) by (right; left; reflexivity).
  split; [exact Hin|]. split; [reflexivity|].
  exact (@X2_prioritize_missing_value_changes_nothing example_imports
           ["Emma"; "Ulysses"] chair [dune; emma] "Ulysses" Hin eq_refl).
Defined.

(** X3: submitting the same selection a second time changes nothing more:
    run on the catalog its first run left, the prioritize callback gives
    the result of the first run, response and catalog. *)
Theorem X3_prioritize_twice_is_once `{Imported} :
  forall (values : list string) (i : Interaction) (s : Store),
    PrioritizeDropdown.callback values i
      (snd (PrioritizeDropdown.callback values i s))
    = PrioritizeDropdown.callback values i s.
Proof.
  intros values i s.
  pose proof (get_all_store values s) as Hstore.
  destruct (SuggestionsDropdown.get_all values s) as [[sugs|err] s1] eqn:Hget;
    simpl in Hstore; subst s1.
  - rewrite (PrioritizeDropdown_callback_ok values i s sugs Hget).
    cbn [snd].
    set (g := flag_selected sugs).
    assert (Hget' : SuggestionsDropdown.get_all values (map g s)
                    = (Ok (map g sugs), map g s)).
    { rewrite (get_all_map g values s (flag_selected_title sugs)).
      now rewrite Hget. }
    rewrite (PrioritizeDropdown_callback_ok values i (map g s) (map g sugs)
               Hget').
    assert (Hsame : map (flag_selected (map g sugs)) (map g s) = map g s).
    { rewrite map_map. apply map_ext. intros e. apply flag_selected_twice. }
    now rewrite Hsame.
  - rewrite (PrioritizeDropdown_callback_raise values i s err Hget).
    cbn [snd].
    apply (PrioritizeDropdown_callback_raise values i s err Hget).
Qed.

Lemma PrioritizeDropdown_init_run (s : Store) :
  PrioritizeDropdown.init s =
  if (List.length s <=? 25)%nat
  then (Ok (mkSelect 0 (List.length s) (map prioritize_option s)), s)
  else (Raise ValueError, s).
Proof.
  unfold PrioritizeDropdown.init, Suggestion_all. unfold bind.
  apply add_options_fresh.
Qed.

(** X4: for a catalog of at most 25 entries the prioritize button answers
    with a menu that has one option per entry in catalog order, labelled
    with the title, carrying the [doc_id], and checked exactly when the
    entry is prioritized; from none up to all of them may be selected.
    For a larger catalog building the menu raises [ValueError] at the 26th
    option.  Either way the catalog is left as it was. *)
Theorem X4_prioritize_menu_mirrors_catalog :
  forall (i : Interaction) (s : Store),
    if (List.length s <=? 25)%nat
    then
      exists menu : Select,
        PrioritizeButton.callback i s =
          (Ok (send_message "What would you like to prioritize?" menu true),
           s)
        /\ min_values menu = 0%nat
        /\ max_values menu = List.length s
        /\ List.length (options menu) = List.length s
        /\ map label (options menu) = map title s
        /\ map value (options menu) = map (fun e => DocIdValue (doc_id e)) s
        /\ map default (options menu) = map is_prioritized s
    else
      PrioritizeButton.callback i s = (Raise ValueError, s).
Proof.
  intros i s.
  unfold PrioritizeButton.callback. unfold bind.
  rewrite PrioritizeDropdown_init_run.
  destruct (List.length s <=? 25)%nat; [|reflexivity].
  eexists. split; [reflexivity|]. cbn [min_values max_values options].
  unfold prioritize_option.
  repeat split; rewrite ?length_map, ?map_map; reflexivity.
Qed.

(** ** What an edit submission does *)

Lemma assign_run (sug : Suggestion) (f : Suggestion -> Suggestion)
      (s : Store) :
  assign sug f s = (Ok (f sug), map (rewrite_row (doc_id sug) f) s).
Proof. reflexivity. Qed.

Lemma rewrite_row_id (d : Z) (s : Store) :
  map (rewrite_row d (fun e => e)) s = s.
Proof.
  rewrite <- (map_id s) at 2. apply map_ext. intros e.
  unfold rewrite_row. now destruct (doc_id e =? d).
Qed.

Lemma rewrite_row_twice (d : Z) (f g : Suggestion -> Suggestion) (s : Store) :
  (forall e, doc_id (f e) = doc_id e) ->
  map (rewrite_row d g) (map (rewrite_row d f) s)
  = map (rewrite_row d (fun e => g (f e))) s.
Proof.
  intros Hf. rewrite map_map. apply map_ext. intros e.
  unfold rewrite_row. destruct (doc_id e =? d) eqn:E.
  - now rewrite Hf, E.
  - now rewrite E.
Qed.

(** What an optional chapter input asks for: nothing when it is empty,
    the number when [int] reads one. *)
Lemma chapter_step `{Imported} (text : string)
      (setter : Z -> Suggestion -> Suggestion)
      (f : Suggestion -> Suggestion) (sug : Suggestion) (s : Store) :
  (text = "" /\ f = (fun e => e)) \/
  (exists n : Z, py_int text = Some n /\ f = setter n) ->
  (if (0 <? String.length text)%nat
   then n <- int_of text ;; assign sug (setter n)
   else ret sug) s
  = (Ok (f sug), map (rewrite_row (doc_id sug) f) s).
Proof.
  intros [[-> ->] | [n [Hint ->]]].
  - cbn. now rewrite rewrite_row_id.
  - destruct text as [|c rest]; [discriminate|].
    cbn [String.length Nat.ltb Nat.leb].
    unfold bind, int_of. rewrite Hint. cbn [ret]. apply assign_run.
Qed.

Lemma chapter_step_doc_id `{Imported} (text : string)
      (setter : Z -> Suggestion -> Suggestion) (f : Suggestion -> Suggestion) :
  (forall n e, doc_id (setter n e) = doc_id e) ->
  (text = "" /\ f = (fun e => e)) \/
  (exists n : Z, py_int text = Some n /\ f = setter n) ->
  forall e, doc_id (f e) = doc_id e.
Proof.
  intros Hsetter [[_ ->] | [n [_ ->]]] e; [reflexivity | apply Hsetter].
Qed.

(** The edit block when both chapter inputs are empty or numbers. *)
Lemma on_submit_block_run `{Imported} (self : EditModalState)
      (values : EditModal.form)
      (fn ft : Suggestion -> Suggestion) (s : Store) :
  (EditModal.NEXT_CH values = "" /\ fn = (fun e => e)) \/
  (exists n : Z, py_int (EditModal.NEXT_CH values) = Some n /\
                 fn = set_next_ch n) ->
  (EditModal.TOTAL_CH values = "" /\ ft = (fun e => e)) \/
  (exists n : Z, py_int (EditModal.TOTAL_CH values) = Some n /\
                 ft = set_total_ch n) ->
  let write := fun e => ft (fn (set_title (EditModal.TITLE values) e)) in
  EditModal.on_submit_block self values s =
  (Ok (mkEditModal (write (suggestion self))
                   (default_TITLE self) (default_NEXT_CH self)
                   (default_TOTAL_CH self) (default_NOTES self)
                   (Some (EditModal.NOTES values))),
   map (rewrite_row (doc_id (suggestion self)) write) s).
Proof.
  intros Hn Ht write.
  pose proof (chapter_step_doc_id _ set_next_ch fn
                (fun n e => eq_refl) Hn) as Hfn.
  unfold EditModal.on_submit_block.
  rewrite (bind_ok _ _ _ _ _ (assign_run _ _ s)).
  rewrite (bind_ok _ _ _ _ _ (chapter_step _ set_next_ch fn _ _ Hn)).
  rewrite (bind_ok _ _ _ _ _ (chapter_step _ set_total_ch ft _ _ Ht)).
  unfold ret. rewrite Hfn. cbn [doc_id set_title].
  rewrite rewrite_row_twice by (intros e; rewrite ?Hfn; reflexivity).
  rewrite rewrite_row_twice by (intros e; rewrite ?Hfn; reflexivity).
  reflexivity.
Qed.

(** X5: an edit submission whose two chapter inputs are each empty or a
    number returns the listing and leaves the catalog it found with one
    change: on the rows with the [doc_id] of the edited suggestion, the
    title is the submitted one and each chapter number that was given is
    the submitted one; an empty chapter input keeps the stored number.
    Every other row is as it was. *)
Theorem X5_edit_writes_submitted_fields `{Imported} :
  forall (self : EditModalState) (values : EditModal.form) (i : Interaction)
         (fn ft : Suggestion -> Suggestion) (s : Store),
    (EditModal.NEXT_CH values = "" /\ fn = (fun e => e)) \/
    (exists n : Z, py_int (EditModal.NEXT_CH values) = Some n /\
                   fn = set_next_ch n) ->
    (EditModal.TOTAL_CH values = "" /\ ft = (fun e => e)) \/
    (exists n : Z, py_int (EditModal.TOTAL_CH values) = Some n /\
                   ft = set_total_ch n) ->
    let write := fun e => ft (fn (set_title (EditModal.TITLE values) e)) in
    let s' := map (rewrite_row (doc_id (suggestion self)) write) s in
    EditModal.on_submit self values i s =
    (Ok (mkEditModal (write (suggestion self))
                     (default_TITLE self) (default_NEXT_CH self)
                     (default_TOTAL_CH self) (default_NOTES self)
                     (Some (EditModal.NOTES values)),
         edit_message
           (mkEmbed "Suggested works:"
              (Py.join newline (map display_title (Py.sorted status s'))))),
     s').
Proof.
  intros self values i fn ft s Hn Ht write s'.
  unfold EditModal.on_submit, new_session. unfold bind at 1.
  rewrite (on_submit_block_run self values fn ft s Hn Ht).
  reflexivity.
Qed.

Lemma X5_edit_writes_witness :
  @py_int example_imports "3" = Some 3 /\
  snd (@EditModal.on_submit example_imports
         (mkEditModal emma "Emma" 0 0 "austen" None)
         (EditModal.mkForm "Emma (1815)" "3" "" "novel") reader [dune; emma])
  = [dune; mkSuggestion 2 "Emma (1815)" 8 0 3 "austen" false].
Proof.
  split; [reflexivity|].
  rewrite (@X5_edit_writes_submitted_fields example_imports
             (mkEditModal emma "Emma" 0 0 "austen" None)
             (EditModal.mkForm "Emma (1815)" "3" "" "novel") reader
             (set_next_ch 3) (fun e => e) [dune; emma]
             (or_intror (ex_intro _ 3 (conj eq_refl eq_refl)))
             (or_introl (conj eq_refl eq_refl))).
  reflexivity.
Defined.

(** A chapter input that is not empty and that [int] rejects. *)
Lemma chapter_step_bad `{Imported} (text : string)
      (setter : Z -> Suggestion -> Suggestion) (sug : Suggestion) (s : Store) :
  text <> "" ->
  py_int text = None ->
  (if (0 <? String.length text)%nat
   then n <- int_of text ;; assign sug (setter n)
   else ret sug) s
  = (Raise ValueError, s).
Proof.
  intros Hne Hint. destruct text as [|c rest]; [contradiction|].
  cbn [String.length Nat.ltb Nat.leb].
  apply bind_raise. unfold int_of. now rewrite Hint.
Qed.

Lemma chapter_text_cases `{Imported} (text : string)
      (setter : Z -> Suggestion -> Suggestion) :
  (exists f : Suggestion -> Suggestion,
      (text = "" /\ f = (fun e => e)) \/
      (exists n : Z, py_int text = Some n /\ f = setter n)) \/
  (text <> "" /\ py_int text = None).
Proof.
  destruct text as [|c rest].
  - left. exists (fun e => e). left. now split.
  - destruct (py_int (String c rest)) as [n|] eqn:Hint.
    + left. exists (setter n). right. exists n. now split.
    + right. split; [discriminate | reflexivity].
Qed.

(** The edit block when a chapter input is rejected: [ValueError]. *)
Lemma on_submit_block_bad `{Imported} (self : EditModalState)
      (values : EditModal.form)
      (s : Store) :
  (EditModal.NEXT_CH values <> "" /\
   py_int (EditModal.NEXT_CH values) = None) \/
  ((EditModal.NEXT_CH values = "" \/
    py_int (EditModal.NEXT_CH values) <> None) /\
   EditModal.TOTAL_CH values <> "" /\
   py_int (EditModal.TOTAL_CH values) = None) ->
  fst (EditModal.on_submit_block self values s) = Raise ValueError.
Proof.
  intros Hbad. unfold EditModal.on_submit_block.
  rewrite (bind_ok _ _ _ _ _ (assign_run _ _ s)).
  destruct Hbad as [[Hne Hint] | [Hnext [Hne Hint]]].
  - now rewrite (bind_raise _ _ _ _ _
                   (chapter_step_bad _ set_next_ch _ _ Hne Hint)).
  - destruct (chapter_text_cases (EditModal.NEXT_CH values) set_next_ch)
      as [[fn Hfn] | [Hne' Hint']].
    + rewrite (bind_ok _ _ _ _ _ (chapter_step _ set_next_ch fn _ _ Hfn)).
      now rewrite (bind_raise _ _ _ _ _
                     (chapter_step_bad _ set_total_ch _ _ Hne Hint)).
    + destruct Hnext; contradiction.
Qed.

(** X6: an edit submission with a chapter input that is not empty and that
    [int] rejects, the last-read chapter or, when that one is acceptable,
    the total, ends in [ValueError]: the exception leaves the handler, and
    no listing is sent. *)
Theorem X6_edit_bad_chapter_raises `{Imported} :
  forall (self : EditModalState) (values : EditModal.form) (i : Interaction)
         (s : Store),
    (EditModal.NEXT_CH values <> "" /\
     py_int (EditModal.NEXT_CH values) = None) \/
    ((EditModal.NEXT_CH values = "" \/
      py_int (EditModal.NEXT_CH values) <> None) /\
     EditModal.TOTAL_CH values <> "" /\
     py_int (EditModal.TOTAL_CH values) = None) ->
    fst (EditModal.on_submit self values i s) = Raise ValueError.
Proof.
  intros self values i s Hbad.
  pose proof (on_submit_block_bad self values s Hbad) as Hblock.
  unfold EditModal.on_submit, new_session. unfold bind at 1.
  destruct (EditModal.on_submit_block self values s) as [[self'|err] s1];
    simpl in Hblock; [discriminate|]. now injection Hblock as ->.
Qed.

Lemma X6_edit_bad_chapter_witness :
  "ten" <> "" /\
  @py_int example_imports "ten" = None /\
  fst (@EditModal.on_submit example_imports
         (mkEditModal emma "Emma" 0 0 "austen" None)
         (EditModal.mkForm "Emma (1815)" "3" "ten" "novel") reader
         [dune; emma])
  = Raise ValueError.
Proof.
  assert (Hne : "ten" <> "") by discriminate.
  split; [exact Hne|]. split; [reflexivity|].
  apply (@X6_edit_bad_chapter_raises example_imports).
  right. split; [right; discriminate|]. split; [exact Hne | reflexivity].
Defined.

(** The catalog an edit submission leaves, whatever was submitted: the one
    it found, up to the rows with the [doc_id] of the edited suggestion. *)
Lemma on_submit_rewrites_row `{Imported} (self : EditModalState)
      (values : EditModal.form) (i : Interaction) (s : Store) :
  exists f : Suggestion -> Suggestion,
    snd (EditModal.on_submit self values i s)
    = map (rewrite_row (doc_id (suggestion self)) f) s.
Proof.
  destruct (chapter_text_cases (EditModal.NEXT_CH values) set_next_ch)
    as [[fn Hfn] | Hbadn].
  - destruct (chapter_text_cases (EditModal.TOTAL_CH values) set_total_ch)
      as [[ft Hft] | Hbadt].
    + exists (fun e => ft (fn (set_title (EditModal.TITLE values) e))).
      unfold EditModal.on_submit, new_session. unfold bind at 1.
      now rewrite (on_submit_block_run self values fn ft s Hfn Hft).
    + exists (fun e => e). rewrite rewrite_row_id.
      assert (Hblock : fst (EditModal.on_submit_block self values s)
                       = Raise ValueError).
      { apply on_submit_block_bad. right. split; [|exact Hbadt].
        destruct Hfn as [[Hblank _] | [n [Hint _]]];
          [now left | right; congruence]. }
      unfold EditModal.on_submit, new_session. unfold bind at 1.
      destruct (EditModal.on_submit_block self values s) as [[self'|err] s1];
        simpl in Hblock; [discriminate | reflexivity].
  - exists (fun e => e). rewrite rewrite_row_id.
    assert (Hblock : fst (EditModal.on_submit_block self values s)
                     = Raise ValueError).
    { apply on_submit_block_bad. now left. }
    unfold EditModal.on_submit, new_session. unfold bind at 1.
    destruct (EditModal.on_submit_block self values s) as [[self'|err] s1];
      simpl in Hblock; [discriminate | reflexivity].
Qed.

(** X7: an edit submission, whatever it submits and whether it returns or
    raises, leaves the catalog with as many rows as it found, and every
    row whose [doc_id] is not the one of the edited suggestion is at its
    place, unchanged. *)
Theorem X7_edit_touches_only_its_row `{Imported} :
  forall (self : EditModalState) (values : EditModal.form) (i : Interaction)
         (s : Store),
    List.length (snd (EditModal.on_submit self values i s)) = List.length s /\
    forall (n : nat) (e : Suggestion),
      nth_error s n = Some e ->
      doc_id e <> doc_id (suggestion self) ->
      nth_error (snd (EditModal.on_submit self values i s)) n = Some e.
Proof.
  intros self values i s.
  destruct (on_submit_rewrites_row self values i s) as [f ->].
  split; [apply length_map|].
  intros n e Hnth Hother.
  rewrite nth_error_map, Hnth. cbn [option_map].
  unfold rewrite_row. apply Z.eqb_neq in Hother. now rewrite Hother.
Qed.

(** X8: an edit submission never changes a prioritization flag: the
    [is_prioritized] column of the catalog is the same after [on_submit],
    whatever was submitted and whether it returned or raised. *)
Theorem X8_edit_keeps_flags `{Imported} :
  forall (self : EditModalState) (values : EditModal.form) (i : Interaction)
         (s : Store),
    map is_prioritized (snd (EditModal.on_submit self values i s))
    = map is_prioritized s.
Proof.
  intros self values i s.
  apply (on_submit_column is_prioritized self values i); reflexivity.
Qed.

Lemma set_title_same (e : Suggestion) : set_title (title e) e = e.
Proof. now destruct e. Qed.

(** X9: in a catalog whose [doc_id]s are distinct, opening the edit modal
    on a title that [get] finds and submitting it with the title as it is
    and both chapter inputs empty leaves the catalog exactly as it was,
    whatever is typed in the notes input. *)
Theorem X9_edit_without_changes_is_noop `{Imported} :
  forall (t notes_text : string) (e : Suggestion) (i : Interaction)
         (s : Store),
    NoDup (map doc_id s) ->
    Suggestion_get t s = (Ok e, s) ->
    exists self' : EditModalState,
      (modal <- EditModal.init t ;;
       EditModal.on_submit modal (EditModal.mkForm t "" "" notes_text) i) s
      = (Ok (self',
             edit_message
               (mkEmbed "Suggested works:"
                  (Py.join newline (map display_title (Py.sorted status s))))),
         s).
Proof.
  intros t notes_text e i s Hnodup Hget.
  destruct (Suggestion_get_inv _ _ _ _ Hget) as [_ Hfind].
  destruct (find_has_title t s e Hfind) as [Hin Htitle].
  assert (Hinit : EditModal.init t s
                  = (Ok (mkEditModal e (title e) (next_ch e) (total_ch e)
                                     (notes e) None), s)).
  { unfold EditModal.init. now rewrite (bind_ok _ _ _ _ _ Hget). }
  rewrite (bind_ok _ _ _ _ _ Hinit).
  unfold EditModal.on_submit, new_session. unfold bind at 1.
  rewrite (on_submit_block_run
             (mkEditModal e (title e) (next_ch e) (total_ch e) (notes e) None)
             (EditModal.mkForm t "" "" notes_text)
             (fun x => x) (fun x => x) s
             (or_introl (conj eq_refl eq_refl))
             (or_introl (conj eq_refl eq_refl))).
  cbn [suggestion EditModal.TITLE EditModal.NOTES].
  assert (Hsame : map (rewrite_row (doc_id e) (fun x => set_title t x)) s = s).
  { rewrite <- (map_id s) at 2. apply map_ext_in. intros x Hx.
    unfold rewrite_row. destruct (doc_id x =? doc_id e) eqn:E;
      [|reflexivity].
    apply Z.eqb_eq in E.
    rewrite (NoDup_map_eq doc_id s x e Hnodup Hx Hin E).
    rewrite <- Htitle. apply set_title_same. }
  rewrite Hsame. eexists. reflexivity.
Qed.

Lemma X9_edit_without_changes_witness :
  NoDup (map doc_id [dune; emma]) /\
  Suggestion_get "Emma" [dune; emma] = (Ok emma, [dune; emma]) /\
  snd ((modal <- EditModal.init "Emma" ;;
        @EditModal.on_submit example_imports modal
           (EditModal.mkForm "Emma" "" "" "a new note") reader) [dune; emma])
  = [dune; emma].
Proof.
  assert (Hnodup : NoDup (map doc_id [dune; emma])).
  { repeat constructor; simpl; intuition discriminate. }
  split; [exact Hnodup|]. split; [reflexivity|].
  destruct (@X9_edit_without_changes_is_noop example_imports "Emma"
              "a new note" emma reader [dune; emma] Hnodup eq_refl)
    as [self' Hrun].
  now rewrite Hrun.
Defined.

(** ** From a menu to the modal *)

Lemma find_present (t : string) (s : Store) (e : Suggestion) :
  In e s -> title e = t -> exists e', find (has_title t) s = Some e'.
Proof.
  intros Hin Ht. destruct (find (has_title t) s) as [e'|] eqn:Hfind.
  - now exists e'.
  - exfalso. pose proof (find_none _ _ Hfind e Hin) as Hno.
    unfold has_title in Hno. rewrite Ht, String.eqb_refl in Hno.
    discriminate.
Qed.

(** X10: in a catalog whose titles are distinct, when the user owns at
    most 25 entries, the menu built for the user is returned and every
    option of it leads back to an entry of that user: it is labelled with
    the abbreviated title of the entry and carries its title, and
    selecting it in the edit menu opens the modal on that entry,
    pre-filled with its stored title, chapter numbers and notes; the owner
    of that entry is the user. *)
Theorem X10_owner_menu_opens_own_entries `{Imported} :
  forall (u : Member) (i : Interaction) (s : Store),
    NoDup (map title s) ->
    Nat.le (List.length (filter (fun e => owner_id e =? id u) s)) 25 ->
    exists menu : Select,
      UserSuggestionsDropdown.init u s = (Ok menu, s) /\
      forall o : SelectOption,
        In o (options menu) ->
        exists e : Suggestion,
          In e s /\
          owner_id e = id u /\
          o = mkOption (abbreviate (title e)) (TitleValue (title e)) false /\
          EditDropdown.callback [title e] i s =
            (Ok (send_modal (mkEditModal e (title e) (next_ch e) (total_ch e)
                                         (notes e) None)), s).
Proof.
  intros u i s Hnodup Hroom.
  exists (mkSelect 1 1
            (map title_option (filter (fun e => owner_id e =? id u) s))).
  split.
  - rewrite UserSuggestionsDropdown_init_run.
    apply Nat.leb_le in Hroom. now rewrite Hroom.
  - cbn [options]. intros o Ho.
    apply in_map_iff in Ho. destruct Ho as [e [<- He]].
    apply filter_In in He. destruct He as [Hin Hown].
    apply Z.eqb_eq in Hown.
    exists e. split; [exact Hin|]. split; [exact Hown|].
    split; [reflexivity|].
    destruct (find_present (title e) s e Hin eq_refl) as [e' Hfind].
    destruct (find_has_title _ _ _ Hfind) as [Hin' Htitle'].
    assert (e' = e) by (apply (NoDup_map_eq title s); assumption).
    subst e'.
    unfold EditDropdown.callback, EditModal.init.
    assert (Hget : Suggestion_get (title e) s = (Ok e, s)).
    { rewrite Suggestion_get_find. now rewrite Hfind. }
    rewrite (bind_ok _ _ _ _ _ (bind_ok _ _ _ _ _ Hget)).
    reflexivity.
Qed.

Lemma X10_owner_menu_witness :
  NoDup (map title [dune; emma]) /\
  Nat.le (List.length
            (filter (fun e => owner_id e =? id (user reader)) [dune; emma]))
         25 /\
  exists menu : Select,
    @UserSuggestionsDropdown.init example_imports (user reader) [dune; emma]
    = (Ok menu, [dune; emma]) /\
    forall o : SelectOption,
      In o (options menu) ->
      exists e : Suggestion,
        In e [dune; emma] /\
        owner_id e = id (user reader) /\
        o = mkOption (@abbreviate example_imports (title e))
                     (TitleValue (title e)) false /\
        EditDropdown.callback [title e] reader [dune; emma] =
          (Ok (send_modal (mkEditModal e (title e) (next_ch e) (total_ch e)
                                       (notes e) None)), [dune; emma]).
Proof.
  assert (Hnodup : NoDup (map title [dune; emma])).
  { repeat constructor; simpl; intuition discriminate. }
  assert (Hroom : Nat.le (List.length
                            (filter (fun e => owner_id e =? id (user reader))
                                    [dune; emma])) 25) by (cbn; lia).
  split; [exact Hnodup|]. split; [exact Hroom|].
  exact (@X10_owner_menu_opens_own_entries example_imports (user reader)
           reader [dune; emma] Hnodup Hroom).
Defined.

(** ** The listing after a change *)

Lemma renders_listing `{Imported} (i : Interaction) :
  renders_final (fun r => r) (SuggestionsDropdown.callback i).
Proof. intros s. cbn. eexists. split; reflexivity. Qed.

Lemma renders_bind `{Imported} {A B : Type} (response : B -> Response)
      (m : M A) (k : A -> M B) :
  (forall a, renders_final response (k a)) ->
  renders_final response (bind m k).
Proof.
  intros Hk s. unfold bind.
  destruct (m s) as [[a|err] s1]; [apply Hk | exact I].
Qed.

(** X11: every handler that answers with the listing shows the catalog as
    it leaves it, not as it found it: when the add form, the edit form,
    the prioritize menu or the remove menu returns, the embed it sends is
    what [suggestions_embed] gives on the catalog after the handler. *)
Theorem X11_listing_follows_the_change `{Imported} :
  (forall (f : AddModal.form) (i : Interaction),
      renders_final (fun r => r) (AddModal.on_submit f i)) /\
  (forall (self : EditModalState) (values : EditModal.form)
          (i : Interaction),
      renders_final snd (EditModal.on_submit self values i)) /\
  (forall (values : list string) (i : Interaction),
      renders_final (fun r => r) (PrioritizeDropdown.callback values i)) /\
  (forall (values : list string) (i : Interaction),
      renders_final (fun r => r) (RemoveDropdown.callback values i)).
Proof.
  repeat split.
  - intros f i. unfold AddModal.on_submit.
    apply renders_bind. intros total.
    apply renders_bind. intros _.
    apply (renders_listing i).
  - intros self values i. unfold EditModal.on_submit.
    apply renders_bind. intros self'.
    intros s. cbn. eexists. split; reflexivity.
  - intros values i. unfold PrioritizeDropdown.callback.
    apply renders_bind. intros sugs.
    apply renders_bind. intros _.
    apply renders_listing.
  - intros values i. unfold RemoveDropdown.callback.
    apply renders_bind. intros _.
    apply renders_listing.
Qed.

(** ** Order within a status *)

Lemma sorted_constant {A : Type} (key : A -> Z) (k : Z) (l : list A) :
  Forall (fun x => key x = k) l -> Py.sorted key l = l.
Proof.
  induction 1 as [|x rest Hx Hrest IH]; [reflexivity|].
  cbn [Py.sorted]. rewrite IH. apply insert_front.
  eapply Forall_impl; [|exact Hrest].
  intros y Hy. cbv beta in Hy. unfold Py.key_le. lia.
Qed.

(** X12: the listing keeps the catalog order among entries of equal
    status: for every status value, the entries with that status come in
    the sorted sequence in the order they have in the catalog. *)
Theorem X12_listing_keeps_catalog_order_within_status `{Imported} :
  forall (k : Z) (s : Store),
    filter (fun e => status e =? k) (Py.sorted status s)
    = filter (fun e => status e =? k) s.
Proof.
  intros k s. rewrite filter_sorted.
  apply (sorted_constant status k).
  apply Forall_forall. intros e He.
  apply filter_In in He. destruct He as [_ He]. now apply Z.eqb_eq.
Qed.

(** ** What adding leaves alone *)

(** X13: the add form never touches an existing record: whatever is
    submitted and whether the handler returns or raises, the catalog it
    leaves is the catalog it found followed by at most one record, and
    that record has the submitted title and notes, the acting user as
    owner, no chapter read and no priority. *)
Theorem X13_add_only_appends `{Imported} :
  forall (f : AddModal.form) (i : Interaction) (s : Store),
    exists added : list Suggestion,
      snd (AddModal.on_submit f i s) = s ++ added /\
      (List.length added <= 1)%nat /\
      Forall (fun e => title e = AddModal.TITLE f /\
                       notes e = AddModal.NOTES f /\
                       owner_id e = id (user i) /\
                       next_ch e = 0 /\
                       is_prioritized e = false) added.
Proof.
  intros f i s.
  assert (Hnew : forall total : Z,
             exists added : list Suggestion,
               snd ((Suggestion_new (AddModal.TITLE f) (id (user i)) total
                                    (AddModal.NOTES f) ;;;
                     embed <- suggestions_embed ;;
                     ret (edit_message embed)) s) = s ++ added /\
               (List.length added <= 1)%nat /\
               Forall (fun e => title e = AddModal.TITLE f /\
                                notes e = AddModal.NOTES f /\
                                owner_id e = id (user i) /\
                                next_ch e = 0 /\
                                is_prioritized e = false) added).
  { intros total. unfold bind at 1, Suggestion_new.
    destruct (existsb (has_title (AddModal.TITLE f)) s).
    - exists []. cbn. rewrite app_nil_r.
      split; [reflexivity | split; [lia | constructor]].
    - destruct (String.eqb (AddModal.NOTES f) "" || (total <? 0))%bool.
      + exists []. cbn. rewrite app_nil_r.
        split; [reflexivity | split; [lia | constructor]].
      + eexists [_]. cbn.
        split; [reflexivity | split; [lia|]].
        constructor; [|constructor]. cbn. repeat split. }
  assert (Hnone : exists added : list Suggestion,
             s = s ++ added /\
             (List.length added <= 1)%nat /\
             Forall (fun e => title e = AddModal.TITLE f /\
                              notes e = AddModal.NOTES f /\
                              owner_id e = id (user i) /\
                              next_ch e = 0 /\
                              is_prioritized e = false) added).
  { exists []. rewrite app_nil_r.
    split; [reflexivity | split; [cbn; lia | constructor]]. }
  unfold AddModal.on_submit.
  destruct (AddModal.CHAPTERS f) as [text|].
  - destruct (0 <? String.length text)%nat.
    + unfold int_of. destruct (py_int text) as [n|].
      * apply (Hnew n).
      * exact Hnone.
    + apply (Hnew 0).
  - apply (Hnew 0).
Qed.

(** ** A number of chapters *)

(** X14: when the chapters input holds a text that [int] reads as a number
    that is not negative, the title is new and the notes are not empty,
    the add form returns the listing and the record that joins the
    catalog, the one [get] then finds under the title, has that number as
    its chapter count. *)
Theorem X14_numeric_chapters_are_stored `{Imported} :
  forall (f : AddModal.form) (text : string) (n : Z) (i : Interaction)
         (s : Store),
    AddModal.CHAPTERS f = Some text ->
    py_int text = Some n ->
    0 <= n ->
    Suggestion_get (AddModal.TITLE f) s = (Raise NotFound, s) ->
    AddModal.NOTES f <> "" ->
    let created :=
      mkSuggestion (fresh_doc_id s) (AddModal.TITLE f) (id (user i)) n 0
                   (AddModal.NOTES f) false in
    AddModal.on_submit f i s =
      (Ok (edit_message
             (mkEmbed "Suggested works:"
                (Py.join newline
                   (map display_title
                        (Py.sorted status (s ++ [created])))))),
       s ++ [created]) /\
    Suggestion_get (AddModal.TITLE f) (s ++ [created])
    = (Ok created, s ++ [created]).
Proof.
  intros f text n i s Hc Hint Hpos Hnew Hnotes created.
  destruct (Suggestion_get_inv _ _ _ _ Hnew) as [_ [_ Hfind]].
  assert (Hcreate :
            Suggestion_new (AddModal.TITLE f) (id (user i)) n
                           (AddModal.NOTES f) s
            = (Ok created, s ++ [created])).
  { unfold Suggestion_new. rewrite find_existsb, Hfind.
    destruct (String.eqb_spec (AddModal.NOTES f) "") as [E|_];
      [contradiction|].
    apply Z.ltb_ge in Hpos. rewrite Hpos. reflexivity. }
  split.
  - unfold AddModal.on_submit. rewrite Hc.
    destruct text as [|c rest]; [discriminate|].
    cbn [String.length Nat.ltb Nat.leb].
    unfold int_of. rewrite Hint. unfold bind at 1. cbn [ret].
    rewrite (bind_ok _ _ _ _ _ Hcreate). reflexivity.
  - rewrite Suggestion_get_find.
    rewrite (find_app_new _ s created Hfind); [reflexivity|].
    apply String.eqb_refl.
Qed.

Lemma X14_numeric_chapters_witness :
  @py_int example_imports " 18 " = Some 18 /\
  Suggestion_get "Ulysses" [dune] = (Raise NotFound, [dune]) /\
  "joyce" <> "" /\
  Suggestion_get "Ulysses"
    (snd (@AddModal.on_submit example_imports
            (AddModal.mkForm "Ulysses" (Some " 18 ") "joyce") reader [dune]))
  = (Ok (mkSuggestion 2 "Ulysses" 7 18 0 "joyce" false),
     [dune; mkSuggestion 2 "Ulysses" 7 18 0 "joyce" false]).
Proof.
  assert (Hne : "joyce" <> "") by discriminate.
  split; [reflexivity|]. split; [reflexivity|]. split; [exact Hne|].
  assert (Hpos : 0 <= 18) by lia.
  pose proof (@X14_numeric_chapters_are_stored example_imports
                (AddModal.mkForm "Ulysses" (Some " 18 ") "joyce") " 18 " 18
                reader [dune] eq_refl eq_refl Hpos eq_refl Hne)
    as [_ Hget].
  exact Hget.
Defined.

(** ** The selected suggestions *)

(** X15: when [get_all] returns, it has left the catalog as it was and
    returns one suggestion of the catalog per selected value, in the order
    of the selection, each with the title that was asked for; [get] then
    returns the first of them, and raises [IndexError] on an empty
    selection. *)
Theorem X15_get_all_follows_selection :
  forall (values : list string) (s s1 : Store) (sugs : list Suggestion),
    SuggestionsDropdown.get_all values s = (Ok sugs, s1) ->
    s1 = s /\
    map title sugs = values /\
    Forall (fun e => In e s) sugs /\
    SuggestionsDropdown.get values s =
      match sugs with
      | e :: _ => (Ok e, s)
      | [] => (Raise IndexError, s)
      end.
Proof.
  intros values s s1 sugs Hget.
  pose proof (get_all_store values s) as Hstore.
  rewrite Hget in Hstore. cbn [snd] in Hstore.
  pose proof (get_all_found values s s1 sugs Hget) as Hall.
  split; [exact Hstore|].
  clear Hget Hstore.
  split; [|split].
  - induction Hall as [|t e ts es Hfind _ IH]; [reflexivity|].
    cbn [map]. rewrite IH.
    now rewrite (proj2 (find_has_title t s e Hfind)).
  - induction Hall as [|t e ts es Hfind _ IH]; constructor; [|exact IH].
    exact (proj1 (find_has_title t s e Hfind)).
  - destruct Hall as [|t e ts es Hfind _]; [reflexivity|].
    cbn [SuggestionsDropdown.get]. rewrite Suggestion_get_find.
    now rewrite Hfind.
Qed.

Lemma X15_get_all_witness :
  SuggestionsDropdown.get_all ["Emma"; "Dune"] [dune; emma]
  = (Ok [emma; dune], [dune; emma]) /\
  SuggestionsDropdown.get ["Emma"; "Dune"] [dune; emma]
  = (Ok emma, [dune; emma]).
Proof.
  split; [reflexivity|].
  exact (proj2 (proj2 (proj2
           (X15_get_all_follows_selection ["Emma"; "Dune"] [dune; emma]
              [dune; emma] [emma; dune] eq_refl)))).
Defined.
